(** * postal-go: a shallow embedding of the Postal API client

    The development follows the two source files of the package:
    [postal.go] (the transport core: [NewClient], [NewRequest], [Do],
    [CheckResponse]) and the two service files (the [Send], [SendRAW],
    [GetMessage] and [GetDeliveries] operations).

    The package sits on three parts of the Go standard library, which are
    modelled first, as far as the package exercises them:
    - [net/url]: parsing, reference resolution and printing of URLs;
    - [net/http]: header maps, request construction;
    - [encoding/json]: the JSON scanner, decoding by struct tags, encoding.

    A Go function that may panic returns an [Outcome]; a Go pair
    [(value, error)] is a pair of options, as both components can be nil
    or non-nil independently in this package.

    What the model leaves out is said where it is left out. In short:
    contexts and deadlines; the connection behind a response body (the
    draining and closing that [Do] defers); the text of most library
    errors; user information, IPv6 zones, and the coercion of invalid
    UTF-8 in the libraries; the decoding of envelope members into the
    fields of the embedded [*http.Response]. [int] is 64 bits wide. *)

From Stdlib Require Import ZArith String Ascii List Bool Lia.
From stdpp Require Import base strings gmap list option pretty sorting.

Open Scope Z_scope.

(** ** Outcomes: normal return or panic *)

Inductive Outcome (A : Type) : Type :=
| Return (a : A)
| Panic (msg : string).
Arguments Return {A} a.
Arguments Panic {A} msg.

Definition nil_dereference : string :=
  "runtime error: invalid memory address or nil pointer dereference".

(** ** Errors of the standard library, by kind and text

    A type error of the decoder is kept by the JSON kind it met and
    the Go type it could not store it in; the message the library
    prints also names the struct field, which is left out here. *)

Inductive StdError :=
| UrlError (msg : string)
| SyntaxError (msg : string)
| UnmarshalTypeError (value gotype : string)
| EOF
| UnexpectedEOF
| OtherError (msg : string).

(** A library call that reports failure through its [error] result. *)
Inductive Result (A : Type) : Type :=
| Ok (a : A)
| Err (e : StdError).
Arguments Ok {A} a.
Arguments Err {A} e.

Definition StdError_Error (e : StdError) : string :=
  match e with
  | UrlError msg => msg
  | SyntaxError msg => msg
  | UnmarshalTypeError value gotype =>
      "json: cannot unmarshal " +:+ value +:+ " into Go value of type " +:+ gotype
  | EOF => "EOF"
  | UnexpectedEOF => "unexpected EOF"
  | OtherError msg => msg
  end.

(** ** Bytes and the [strings] package *)

Definition code (c : ascii) : Z := Z.of_N (N_of_ascii c).

Definition between (lo hi c : ascii) : bool :=
  (code lo <=? code c) && (code c <=? code hi).

Definition is_lower (c : ascii) : bool := between "a" "z" c.
Definition is_upper (c : ascii) : bool := between "A" "Z" c.
Definition is_alpha (c : ascii) : bool := is_lower c || is_upper c.
Definition is_digit (c : ascii) : bool := between "0" "9" c.
Definition is_alnum (c : ascii) : bool := is_alpha c || is_digit c.

Definition dquote : ascii := "034"%char.

Fixpoint elem_char (c : ascii) (set : string) : bool :=
  match set with
  | EmptyString => false
  | String d set' => Ascii.eqb c d || elem_char c set'
  end.

Definition to_lower (c : ascii) : ascii :=
  if is_upper c then ascii_of_N (N_of_ascii c + 32) else c.
Definition to_upper (c : ascii) : ascii :=
  if is_lower c then ascii_of_N (N_of_ascii c - 32) else c.

Fixpoint map_string (f : ascii -> ascii) (s : string) : string :=
  match s with
  | EmptyString => EmptyString
  | String c s' => String (f c) (map_string f s')
  end.

Definition ToLower : string -> string := map_string to_lower.

Fixpoint any_char (p : ascii -> bool) (s : string) : bool :=
  match s with
  | EmptyString => false
  | String c s' => p c || any_char p s'
  end.

Definition HasPrefix (s p : string) : bool := String.prefix p s.

Fixpoint last_char (s : string) : option ascii :=
  match s with
  | EmptyString => None
  | String c EmptyString => Some c
  | String _ s' => last_char s'
  end.

Fixpoint drop_last (s : string) : string :=
  match s with
  | EmptyString => EmptyString
  | String _ EmptyString => EmptyString
  | String c s' => String c (drop_last s')
  end.

Fixpoint count_char (c : ascii) (s : string) : nat :=
  match s with
  | EmptyString => O
  | String d s' => (if Ascii.eqb c d then 1 else 0)%nat + count_char c s'
  end.

(** [strings.Cut] for a one-byte separator: text before the first
    separator, text after it, and whether one was found. *)
Fixpoint Cut (s : string) (sep : ascii) : string * string * bool :=
  match s with
  | EmptyString => (EmptyString, EmptyString, false)
  | String c s' =>
      if Ascii.eqb c sep then (EmptyString, s', true)
      else let '(before, after, found) := Cut s' sep in
           (String c before, after, found)
  end.

(** Split at the last occurrence of a byte: [s[:i]] and [s[i+1:]] for
    [i = strings.LastIndex(s, sep)], or [None] when [i < 0]. *)
Fixpoint cut_last (s : string) (sep : ascii) : option (string * string) :=
  match s with
  | EmptyString => None
  | String c s' =>
      match cut_last s' sep with
      | Some (before, after) => Some (String c before, after)
      | None => if Ascii.eqb c sep then Some (EmptyString, s') else None
      end
  end.

(** * Package [net/url] *)

Module url.

Record URL := mkURL {
  Scheme : string;
  Opaque : string;
  User : option string;      (* userinfo, in its printed form *)
  Host : string;
  Path : string;
  RawPath : string;
  OmitHost : bool;
  ForceQuery : bool;
  RawQuery : string;
  Fragment : string;
  RawFragment : string
}.

Definition zero : URL :=
  mkURL "" "" None "" "" "" false false "" "" "".

Inductive encoding := encodePath | encodeHost | encodeFragment.

Definition shouldEscape (c : ascii) (mode : encoding) : bool :=
  if is_alnum c then false
  else if (match mode with encodeHost => true | _ => false end)
          && (elem_char c "!$&'()*+,;=:[]<>" || Ascii.eqb c dquote) then false
  else if elem_char c "-_.~" then false
  else if elem_char c "$&+,/:;=?@" then
    match mode with
    | encodePath => Ascii.eqb c "?"
    | encodeFragment => false
    | encodeHost => true
    end
  else if (match mode with encodeFragment => true | _ => false end)
          && elem_char c "!()*" then false
  else true.

Definition ishex (c : ascii) : bool :=
  is_digit c || between "a" "f" c || between "A" "F" c.

Definition unhex (c : ascii) : Z :=
  if is_digit c then code c - code "0"
  else if between "a" "f" c then code c - code "a" + 10
  else if between "A" "F" c then code c - code "A" + 10
  else 0.

Definition hexdigit (n : Z) : ascii :=
  match String.get (Z.to_nat n) "0123456789ABCDEF" with
  | Some c => c
  | None => "0"%char
  end.

Definition byte_of (n : Z) : ascii := ascii_of_N (Z.to_N n).

(** [unescape]: percent-decoding. A malformed escape is an error; in a
    host, an ASCII byte that would need escaping is an error too, and
    an escape may only stand for a non-ASCII byte (or be [%25]). *)
Fixpoint unescape (s : string) (mode : encoding) : Result string :=
  match s with
  | EmptyString => Ok EmptyString
  | String c s' =>
      if Ascii.eqb c "%" then
        match s' with
        | String h1 (String h2 s'') =>
            if ishex h1 && ishex h2 then
              if (match mode with encodeHost => true | _ => false end)
                 && (unhex h1 <? 8)
                 && negb (Ascii.eqb h1 "2" && Ascii.eqb h2 "5")
              then Err (UrlError "invalid URL escape")
              else
                match unescape s'' mode with
                | Err e => Err e
                | Ok t => Ok (String (byte_of (unhex h1 * 16 + unhex h2)) t)
                end
            else Err (UrlError "invalid URL escape")
        | _ => Err (UrlError "invalid URL escape")
        end
      else if (match mode with encodeHost => true | _ => false end)
              && (code c <? 128) && shouldEscape c encodeHost
      then Err (UrlError "invalid character in host name")
      else
        match unescape s' mode with
        | Err e => Err e
        | Ok t => Ok (String c t)
        end
  end.

Fixpoint escape (s : string) (mode : encoding) : string :=
  match s with
  | EmptyString => EmptyString
  | String c s' =>
      if shouldEscape c mode
      then String "%" (String (hexdigit (code c / 16))
                         (String (hexdigit (code c mod 16)) (escape s' mode)))
      else String c (escape s' mode)
  end.

Definition validEncoded (s : string) (mode : encoding) : bool :=
  negb (any_char (fun c =>
          negb (elem_char c "!$&'()*+,;=:@[]%") && shouldEscape c mode) s).

Definition setPath (u : URL) (p : string) : Result URL :=
  match unescape p encodePath with
  | Err e => Err e
  | Ok path =>
      Ok (mkURL (Scheme u) (Opaque u) (User u) (Host u) path
             (if String.eqb p (escape path encodePath) then "" else p)
             (OmitHost u) (ForceQuery u) (RawQuery u)
             (Fragment u) (RawFragment u))
  end.

Definition setFragment (u : URL) (f : string) : Result URL :=
  match unescape f encodeFragment with
  | Err e => Err e
  | Ok frag =>
      Ok (mkURL (Scheme u) (Opaque u) (User u) (Host u) (Path u) (RawPath u)
             (OmitHost u) (ForceQuery u) (RawQuery u) frag
             (if String.eqb f (escape frag encodeFragment) then "" else f))
  end.

Definition EscapedPath (u : URL) : string :=
  if negb (String.eqb (RawPath u) "") && validEncoded (RawPath u) encodePath
     && (match unescape (RawPath u) encodePath with
         | Ok p => String.eqb p (Path u)
         | Err _ => false
         end)
  then RawPath u
  else if String.eqb (Path u) "*" then "*"
  else escape (Path u) encodePath.

Definition EscapedFragment (u : URL) : string :=
  if negb (String.eqb (RawFragment u) "")
     && validEncoded (RawFragment u) encodeFragment
     && (match unescape (RawFragment u) encodeFragment with
         | Ok f => String.eqb f (Fragment u)
         | Err _ => false
         end)
  then RawFragment u
  else escape (Fragment u) encodeFragment.

Definition stringContainsCTLByte (s : string) : bool :=
  any_char (fun c => (code c <? 32) || (code c =? 127)) s.

(** [getScheme]: the loop over the bytes of [rawURL]; [i] counts the
    bytes already seen. *)
Fixpoint getScheme_from (i : nat) (rest rawURL : string)
  : Result (string * string) :=
  match rest with
  | EmptyString => Ok (EmptyString, rawURL)
  | String c rest' =>
      if is_alpha c then getScheme_from (S i) rest' rawURL
      else if is_digit c || elem_char c "+-." then
        match i with
        | O => Ok (EmptyString, rawURL)
        | _ => getScheme_from (S i) rest' rawURL
        end
      else if Ascii.eqb c ":" then
        match i with
        | O => Err (UrlError "missing protocol scheme")
        | _ => Ok (String.substring 0 i rawURL, rest')
        end
      else Ok (EmptyString, rawURL)
  end.

Definition getScheme (rawURL : string) : Result (string * string) :=
  getScheme_from O rawURL rawURL.

(** [validOptionalPort]: empty, or a colon followed by digits. *)
Definition validOptionalPort (port : string) : bool :=
  match port with
  | EmptyString => true
  | String c digits => Ascii.eqb c ":" && negb (any_char (fun d => negb (is_digit d)) digits)
  end.

(** [parseHost]. Zone identifiers of bracketed IPv6 literals are not
    modelled: a bracketed host is unescaped as a whole. *)
Definition parseHost (host : string) : Result string :=
  let port_ok :=
    if HasPrefix host "[" then
      match cut_last host "]" with
      | None => Err (UrlError "missing ']' in host")
      | Some (_, colonPort) =>
          if validOptionalPort colonPort then Ok tt
          else Err (UrlError "invalid port after host")
      end
    else
      match cut_last host ":" with
      | Some (_, port) =>
          if validOptionalPort (String ":" port) then Ok tt
          else Err (UrlError "invalid port after host")
      | None => Ok tt
      end in
  match port_ok with
  | Err e => Err e
  | Ok _ => unescape host encodeHost
  end.

(** [parseAuthority]. The userinfo is kept as written; its validation
    and unescaping are not modelled. *)
Definition parseAuthority (authority : string)
  : Result (option string * string) :=
  match cut_last authority "@" with
  | None =>
      match parseHost authority with
      | Err e => Err e
      | Ok host => Ok (None, host)
      end
  | Some (userinfo, hostport) =>
      match parseHost hostport with
      | Err e => Err e
      | Ok host => Ok (Some userinfo, host)
      end
  end.

(** [parse rawURL false]: the parser behind [url.Parse], after the
    fragment has been cut off. *)
Definition parse (rawURL : string) : Result URL :=
  if stringContainsCTLByte rawURL
  then Err (UrlError "net/url: invalid control character in URL")
  else if String.eqb rawURL "*"
  then Ok (mkURL "" "" None "" "*" "" false false "" "" "")
  else
    match getScheme rawURL with
    | Err e => Err e
    | Ok (scheme, rest) =>
        let scheme := ToLower scheme in
        let '(rest, forceQuery, rawQuery) :=
          if (match last_char rest with Some c => Ascii.eqb c "?" | None => false end)
             && Nat.eqb (count_char "?" rest) 1
          then (drop_last rest, true, EmptyString)
          else let '(r, q, _) := Cut rest "?" in (r, false, q) in
        let u0 := mkURL scheme "" None "" "" "" false forceQuery rawQuery "" "" in
        if negb (HasPrefix rest "/") && negb (String.eqb scheme "")
        then Ok (mkURL scheme rest None "" "" "" false forceQuery rawQuery "" "")
        else if negb (HasPrefix rest "/")
                && (let '(segment, _, _) := Cut rest "/" in elem_char ":" segment)
        then Err (UrlError "first path segment in URL cannot contain colon")
        else if (negb (String.eqb scheme "") || negb (HasPrefix rest "///"))
                && HasPrefix rest "//"
        then
          let after := String.substring 2 (String.length rest - 2) rest in
          let '(authority, rest') :=
            let '(a, r, found) := Cut after "/" in
            if found then (a, String "/" r) else (after, EmptyString) in
          match parseAuthority authority with
          | Err e => Err e
          | Ok (user, host) =>
              setPath (mkURL scheme "" user host "" "" false forceQuery rawQuery "" "") rest'
          end
        else if negb (String.eqb scheme "") && HasPrefix rest "/"
        then setPath (mkURL scheme "" None "" "" "" true forceQuery rawQuery "" "") rest
        else setPath u0 rest
    end.

(** [url.Parse] *)
Definition Parse (rawURL : string) : Result URL :=
  let '(u, frag, _) := Cut rawURL "#" in
  match parse u with
  | Err e => Err e
  | Ok url =>
      if String.eqb frag "" then Ok url else setFragment url frag
  end.

(** The elements between the slashes of a path, as the repeated
    [strings.Cut] of [resolvePath] yields them. *)
Fixpoint split_slash (s : string) : list string :=
  match s with
  | EmptyString => [EmptyString]
  | String c s' =>
      if Ascii.eqb c "/" then EmptyString :: split_slash s'
      else match split_slash s' with
           | e :: es => String c e :: es
           | [] => [String c EmptyString]
           end
  end.

Definition tail_string (s : string) : string :=
  match s with
  | EmptyString => EmptyString
  | String _ s' => s'
  end.

(** The body of the loop of [resolvePath]; its state is the output
    written so far and the [first] flag. *)
Definition resolve_step (st : string * bool) (elem : string) : string * bool :=
  let '(dst, first) := st in
  if String.eqb elem "." then (dst, false)
  else if String.eqb elem ".." then
    match cut_last (tail_string dst) "/" with
    | None => ("/", true)
    | Some (before, _) => ("/" +:+ before, first)
    end
  else ((if first then dst else dst +:+ "/") +:+ elem, false).

(** [resolvePath]: the target path of a reference, dot segments
    removed. *)
Definition resolvePath (base ref : string) : string :=
  let full :=
    match ref with
    | EmptyString => base
    | String c _ =>
        if Ascii.eqb c "/" then ref
        else match cut_last base "/" with
             | Some (before, _) => before +:+ "/" +:+ ref
             | None => ref
             end
    end in
  if String.eqb full "" then ""
  else
    let elems := split_slash full in
    let '(dst, _) := fold_left resolve_step elems ("/", true) in
    let dst :=
      match last elems with
      | Some e => if String.eqb e "." || String.eqb e ".." then dst +:+ "/" else dst
      | None => dst
      end in
    match dst with
    | String _ (String c r) => if Ascii.eqb c "/" then String c r else dst
    | _ => dst
    end.

(** [setPath] with its error dropped, as [ResolveReference] calls it. *)
Definition setPath_ (u : URL) (p : string) : URL :=
  match setPath u p with
  | Ok u' => u'
  | Err _ => u
  end.

(** [URL.ResolveReference]. The receiver may be nil: it is first
    dereferenced when the reference has no scheme. *)
Definition ResolveReference (u : option URL) (ref : URL) : Outcome URL :=
  if negb (String.eqb (Scheme ref) "") then
    Return (setPath_ ref (resolvePath (EscapedPath ref) ""))
  else
    match u with
    | None => Panic nil_dereference
    | Some u =>
        let url := mkURL (Scheme u) (Opaque ref) (User ref) (Host ref) (Path ref)
                     (RawPath ref) (OmitHost ref) (ForceQuery ref) (RawQuery ref)
                     (Fragment ref) (RawFragment ref) in
        if negb (String.eqb (Host ref) "") || bool_decide (User ref <> None) then
          Return (setPath_ url (resolvePath (EscapedPath ref) ""))
        else if negb (String.eqb (Opaque ref) "") then
          Return (mkURL (Scheme url) (Opaque url) None "" "" (RawPath url)
                    (OmitHost url) (ForceQuery url) (RawQuery url)
                    (Fragment url) (RawFragment url))
        else
          let url :=
            if String.eqb (Path ref) "" && negb (ForceQuery ref)
               && String.eqb (RawQuery ref) ""
            then
              if String.eqb (Fragment ref) ""
              then mkURL (Scheme url) (Opaque url) (User url) (Host url) (Path url)
                     (RawPath url) (OmitHost url) (ForceQuery url) (RawQuery u)
                     (Fragment u) (RawFragment u)
              else mkURL (Scheme url) (Opaque url) (User url) (Host url) (Path url)
                     (RawPath url) (OmitHost url) (ForceQuery url) (RawQuery u)
                     (Fragment url) (RawFragment url)
            else url in
          if String.eqb (Path ref) "" && negb (String.eqb (Opaque u) "") then
            Return (mkURL (Scheme url) (Opaque u) None "" "" (RawPath url)
                      (OmitHost url) (ForceQuery url) (RawQuery url)
                      (Fragment url) (RawFragment url))
          else
            let url := mkURL (Scheme url) (Opaque url) (User u) (Host u) (Path url)
                         (RawPath url) (OmitHost url) (ForceQuery url) (RawQuery url)
                         (Fragment url) (RawFragment url) in
            Return (setPath_ url (resolvePath (EscapedPath u) (EscapedPath ref)))
    end.

(** [URL.Parse]: parse [ref] in the context of the receiver. *)
Definition URL_Parse (u : option URL) (ref : string)
  : Outcome (option URL * option StdError) :=
  match Parse ref with
  | Err e => Return (None, Some e)
  | Ok refURL =>
      match ResolveReference u refURL with
      | Return url => Return (Some url, None)
      | Panic msg => Panic msg
      end
  end.

(** [URL.String] *)
Definition String_ (u : URL) : string :=
  let scheme := if String.eqb (Scheme u) "" then "" else Scheme u +:+ ":" in
  let body :=
    if negb (String.eqb (Opaque u) "") then scheme +:+ Opaque u
    else
      let authority :=
        if negb (String.eqb (Scheme u) "") || negb (String.eqb (Host u) "")
           || bool_decide (User u <> None)
        then
          if OmitHost u && String.eqb (Host u) "" && bool_decide (User u = None)
          then ""
          else
            (if negb (String.eqb (Host u) "") || negb (String.eqb (Path u) "")
                || bool_decide (User u <> None) then "//" else "")
            +:+ (match User u with Some ui => ui +:+ "@" | None => "" end)
            +:+ (if String.eqb (Host u) "" then "" else escape (Host u) encodeHost)
        else "" in
      let path := EscapedPath u in
      let buf := scheme +:+ authority in
      let buf :=
        match path with
        | String c _ =>
            if negb (Ascii.eqb c "/") && negb (String.eqb (Host u) "")
            then buf +:+ "/" else buf
        | EmptyString => buf
        end in
      let buf :=
        if String.eqb buf "" then
          let '(segment, _, found) := Cut path ":" in
          if found && negb (elem_char "/" segment) then "./" else ""
        else buf in
      buf +:+ path in
  body
  +:+ (if ForceQuery u || negb (String.eqb (RawQuery u) "")
       then "?" +:+ RawQuery u else "")
  +:+ (if String.eqb (Fragment u) "" then "" else "#" +:+ EscapedFragment u).

End url.

(** * Package [net/http] *)

Module http.

Definition MethodGet : string := "GET".
Definition MethodHead : string := "HEAD".
Definition MethodPost : string := "POST".
Definition MethodOptions : string := "OPTIONS".
Definition StatusNoContent : Z := 204.

(** Bytes allowed in a token (RFC 7230), the alphabet of method names
    and header field names. *)
Definition isTokenChar (c : ascii) : bool :=
  is_alnum c || elem_char c "!#$%&'*+-.^_`|~".

Definition validMethod (method : string) : bool :=
  negb (String.eqb method "") && negb (any_char (fun c => negb (isTokenChar c)) method).

(** [textproto.CanonicalMIMEHeaderKey]: a key with a byte outside the
    token alphabet is returned unchanged; otherwise the first letter and
    every letter after a dash are upper case, the others lower case. *)
Fixpoint canonical_from (upper : bool) (s : string) : string :=
  match s with
  | EmptyString => EmptyString
  | String c s' =>
      let c' := if upper then to_upper c else to_lower c in
      String c' (canonical_from (Ascii.eqb c' "-") s')
  end.

Definition CanonicalMIMEHeaderKey (s : string) : string :=
  if any_char (fun c => negb (isTokenChar c)) s then s
  else canonical_from true s.

(** [http.Header], a map from canonical keys to the values added. *)
Abbreviation Header := (gmap string (list string)).

Definition Header_Add (key value : string) (h : Header) : Header :=
  let k := CanonicalMIMEHeaderKey key in
  <[k := default [] (h !! k) ++ [value]]> h.

Definition Header_Set (key value : string) (h : Header) : Header :=
  <[CanonicalMIMEHeaderKey key := [value]]> h.

Definition Header_Values (key : string) (h : Header) : list string :=
  default [] (h !! CanonicalMIMEHeaderKey key).

Definition Header_Get (key : string) (h : Header) : string :=
  match Header_Values key h with
  | v :: _ => v
  | [] => ""
  end.

(** The [Body] of a request: nil, the [http.NoBody] sentinel that
    [NewRequest] installs for an empty buffer, or the buffered bytes. *)
Inductive RequestBody :=
| BodyNil
| NoBody
| BodyBytes (b : string).

Record Request := mkRequest {
  Method : string;
  URL : url.URL;
  Header_ : Header;
  Body : RequestBody;
  ContentLength : Z;
  Host : string
}.

Definition removeEmptyPort (host : string) : string :=
  match last_char host with
  | Some c => if Ascii.eqb c ":" then drop_last host else host
  | None => host
  end.

(** The assignment [u.Host = removeEmptyPort(u.Host)]. *)
Definition normalizeHost (u : url.URL) : url.URL :=
  url.mkURL (url.Scheme u) (url.Opaque u) (url.User u)
    (removeEmptyPort (url.Host u)) (url.Path u) (url.RawPath u) (url.OmitHost u)
    (url.ForceQuery u) (url.RawQuery u) (url.Fragment u) (url.RawFragment u).

(** [http.NewRequest method url body]; [body] is nil or a
    [*bytes.Buffer] with the given contents. *)
Definition NewRequest (method urlStr : string) (body : option string)
  : Result Request :=
  let method := if String.eqb method "" then "GET" else method in
  if negb (validMethod method) then Err (OtherError "net/http: invalid method")
  else
    match url.Parse urlStr with
    | Err e => Err e
    | Ok u =>
        let u := normalizeHost u in
        let host := url.Host u in
        let '(rbody, len) :=
          match body with
          | None => (BodyNil, 0)
          | Some b =>
              if String.eqb b "" then (NoBody, 0)
              else (BodyBytes b, Z.of_nat (String.length b))
          end in
        Ok (mkRequest method u ∅ rbody len host)
    end.

(** The body of a response as [io.ReadAll] finds it: the bytes read,
    and the read error if the stream broke. *)
Record ResponseBody := mkBody {
  read_data : string;
  read_err : option StdError
}.

Record Response := mkResponse {
  StatusCode : Z;
  RespHeader : Header;
  RespBody : ResponseBody;
  RespContentLength : Z;
  Request_ : Request
}.

(** [http.Client.Do]: the transport, as a function of the request. *)
Definition Client := Request -> Result Response.

End http.

(** * Package [encoding/json] *)

Module json.

(** A JSON text. A number keeps its literal; an object keeps its
    members in the order of the text, duplicates included. *)
#[warnings="-register-all"]
Inductive Value :=
| Null
| Bool (b : bool)
| Number (literal : string)
| String_ (s : string)
| Array (elems : list Value)
| Object (members : list (string * Value)).

(** ** The scanner *)

Inductive Scan (A : Type) : Type :=
| Found (a : A) (rest : string)
| Invalid (msg : string)
| Truncated.
Arguments Found {A} a rest.
Arguments Invalid {A} msg.
Arguments Truncated {A}.

Definition is_space (c : ascii) : bool :=
  (code c =? 32) || (code c =? 9) || (code c =? 13) || (code c =? 10).

Fixpoint skip_space (s : string) : string :=
  match s with
  | String c s' => if is_space c then skip_space s' else s
  | EmptyString => s
  end.

Definition maxNestingDepth : Z := 10000.

(** [utf8.EncodeRune] for a code point below 0x110000. *)
Definition EncodeRune (r : Z) : string :=
  let b := url.byte_of in
  if r <? 128 then String (b r) ""
  else if r <? 2048 then String (b (192 + r / 64)) (String (b (128 + r mod 64)) "")
  else if r <? 65536 then
    String (b (224 + r / 4096))
      (String (b (128 + (r / 64) mod 64)) (String (b (128 + r mod 64)) ""))
  else
    String (b (240 + r / 262144))
      (String (b (128 + (r / 4096) mod 64))
         (String (b (128 + (r / 64) mod 64)) (String (b (128 + r mod 64)) ""))).

Definition ReplacementChar : Z := 65533.

Definition hex4 (a b c d : ascii) : option Z :=
  if url.ishex a && url.ishex b && url.ishex c && url.ishex d
  then Some (((url.unhex a * 16 + url.unhex b) * 16 + url.unhex c) * 16 + url.unhex d)
  else None.

Definition IsSurrogate (r : Z) : bool := (55296 <=? r) && (r <? 57344).

(** [utf16.DecodeRune] *)
Definition DecodeRune (r1 r2 : Z) : Z :=
  if (55296 <=? r1) && (r1 <? 56320) && (56320 <=? r2) && (r2 <? 57344)
  then (r1 - 55296) * 1024 + (r2 - 56320) + 65536
  else ReplacementChar.

Definition prepend (bytes : string) (r : Scan string) : Scan string :=
  match r with
  | Found s rest => Found (bytes +:+ s) rest
  | Invalid msg => Invalid msg
  | Truncated => Truncated
  end.

(** A string literal after its opening quote: validity as the scanner
    checks it, contents as [unquote] builds them. Bytes above 0x7f are
    copied as they are (for input that is not UTF-8 the library
    substitutes U+FFFD; that coercion is not modelled). *)
Fixpoint scan_string (s : string) : Scan string :=
  match s with
  | EmptyString => Truncated
  | String c s' =>
      if Ascii.eqb c dquote then Found "" s'
      else if Ascii.eqb c "\" then
        match s' with
        | EmptyString => Truncated
        | String e s'' =>
            if Ascii.eqb e dquote then prepend (String dquote "") (scan_string s'')
            else if Ascii.eqb e "\" then prepend "\" (scan_string s'')
            else if Ascii.eqb e "/" then prepend "/" (scan_string s'')
            else if Ascii.eqb e "b" then prepend (String (url.byte_of 8) "") (scan_string s'')
            else if Ascii.eqb e "f" then prepend (String (url.byte_of 12) "") (scan_string s'')
            else if Ascii.eqb e "n" then prepend (String (url.byte_of 10) "") (scan_string s'')
            else if Ascii.eqb e "r" then prepend (String (url.byte_of 13) "") (scan_string s'')
            else if Ascii.eqb e "t" then prepend (String (url.byte_of 9) "") (scan_string s'')
            else if Ascii.eqb e "u" then
              match s'' with
              | String h1 (String h2 (String h3 (String h4 s3))) =>
                  match hex4 h1 h2 h3 h4 with
                  | None => Invalid "invalid character in \u hexadecimal character escape"
                  | Some rr =>
                      if IsSurrogate rr then
                        match s3 with
                        | String b1 (String b2 (String k1 (String k2 (String k3 (String k4 s4))))) =>
                            match (if Ascii.eqb b1 "\" && Ascii.eqb b2 "u"
                                   then hex4 k1 k2 k3 k4 else None) with
                            | Some rr1 =>
                                if DecodeRune rr rr1 =? ReplacementChar
                                then prepend (EncodeRune ReplacementChar) (scan_string s3)
                                else prepend (EncodeRune (DecodeRune rr rr1)) (scan_string s4)
                            | None => prepend (EncodeRune ReplacementChar) (scan_string s3)
                            end
                        | _ => prepend (EncodeRune ReplacementChar) (scan_string s3)
                        end
                      else prepend (EncodeRune rr) (scan_string s3)
                  end
              | _ => Truncated
              end
            else Invalid "invalid character in string escape code"
        end
      else if code c <? 32 then Invalid "invalid character in string literal"
      else prepend (String c "") (scan_string s')
  end.

Fixpoint span_digits (s : string) : string * string :=
  match s with
  | String c s' =>
      if is_digit c then let '(d, r) := span_digits s' in (String c d, r)
      else (EmptyString, s)
  | EmptyString => (EmptyString, EmptyString)
  end.

(** One or more digits. *)
Definition scan_digits (s : string) : Scan string :=
  match span_digits s with
  | (EmptyString, EmptyString) => Truncated
  | (EmptyString, _) => Invalid "invalid character in numeric literal"
  | (d, r) => Found d r
  end.

(** A number literal: an optional minus sign; a zero, or a non-zero
    digit and further digits; optionally a point and digits; optionally
    an exponent mark, a sign and digits. *)
Definition scan_number (s : string) : Scan string :=
  let '(sign, s1) :=
    match s with
    | String "-" s' => ("-", s')
    | _ => ("", s)
    end in
  let int_part :=
    match s1 with
    | String "0" s2 => Found "0" s2
    | _ => scan_digits s1
    end in
  match int_part with
  | Found i s2 =>
      let frac_part :=
        match s2 with
        | String "." s3 => prepend "." (scan_digits s3)
        | _ => Found "" s2
        end in
      match frac_part with
      | Found f s4 =>
          let exp_part :=
            match s4 with
            | String e s5 =>
                if Ascii.eqb e "e" || Ascii.eqb e "E" then
                  match s5 with
                  | String sg s6 =>
                      if Ascii.eqb sg "+" || Ascii.eqb sg "-"
                      then prepend (String e (String sg "")) (scan_digits s6)
                      else prepend (String e "") (scan_digits s5)
                  | EmptyString => Truncated
                  end
                else Found "" s4
            | EmptyString => Found "" s4
            end in
          match exp_part with
          | Found x s7 => Found (sign +:+ i +:+ f +:+ x) s7
          | Invalid msg => Invalid msg
          | Truncated => Truncated
          end
      | Invalid msg => Invalid msg
      | Truncated => Truncated
      end
  | Invalid msg => Invalid msg
  | Truncated => Truncated
  end.

(** The literals [null], [true] and [false]. *)
Definition scan_literal (lit : string) (v : Value) (s : string) : Scan Value :=
  if HasPrefix s lit then
    Found v (String.substring (String.length lit) (String.length s - String.length lit) s)
  else if String.prefix s lit then Truncated
  else Invalid "invalid character in literal".

(** The elements of an array after the opening bracket, the first
    element known to be there; [value] scans one element. *)
Fixpoint scan_elements (fuel : nat) (value : string -> Scan Value)
    (s : string) (acc : list Value) : Scan (list Value) :=
  match fuel with
  | O => Truncated
  | S fuel' =>
      match value s with
      | Found v rest =>
          match skip_space rest with
          | String c rest' =>
              if Ascii.eqb c "," then scan_elements fuel' value rest' (v :: acc)
              else if Ascii.eqb c "]" then Found (rev (v :: acc)) rest'
              else Invalid "invalid character after array element"
          | EmptyString => Truncated
          end
      | Invalid msg => Invalid msg
      | Truncated => Truncated
      end
  end.

(** The members of an object after the opening brace, the first member
    known to be there. *)
Fixpoint scan_members (fuel : nat) (value : string -> Scan Value)
    (s : string) (acc : list (string * Value)) : Scan (list (string * Value)) :=
  match fuel with
  | O => Truncated
  | S fuel' =>
      match skip_space s with
      | String q s1 =>
          if Ascii.eqb q dquote then
            match scan_string s1 with
            | Found key s2 =>
                match skip_space s2 with
                | String c s3 =>
                    if Ascii.eqb c ":" then
                      match value s3 with
                      | Found v rest =>
                          match skip_space rest with
                          | String d rest' =>
                              if Ascii.eqb d ","
                              then scan_members fuel' value rest' ((key, v) :: acc)
                              else if Ascii.eqb d "}"
                              then Found (rev ((key, v) :: acc)) rest'
                              else Invalid "invalid character after object key:value pair"
                          | EmptyString => Truncated
                          end
                      | Invalid msg => Invalid msg
                      | Truncated => Truncated
                      end
                    else Invalid "invalid character after object key"
                | EmptyString => Truncated
                end
            | Invalid msg => Invalid msg
            | Truncated => Truncated
            end
          else Invalid "invalid character looking for beginning of object key string"
      | EmptyString => Truncated
      end
  end.

(** One JSON value at the head of [s], at nesting depth [depth]. Every
    recursive call follows at least one consumed byte, so a fuel above
    the length of the input is never used up. *)
Fixpoint scan_value (fuel : nat) (depth : Z) (s : string) : Scan Value :=
  match fuel with
  | O => Truncated
  | S fuel' =>
      match skip_space s with
      | EmptyString => Truncated
      | String c rest =>
          if Ascii.eqb c "{" then
            if maxNestingDepth <? depth + 1 then Invalid "exceeded max depth"
            else
              match skip_space rest with
              | String "}" rest' => Found (Object []) rest'
              | _ =>
                  match scan_members fuel' (scan_value fuel' (depth + 1)) rest [] with
                  | Found ms r => Found (Object ms) r
                  | Invalid msg => Invalid msg
                  | Truncated => Truncated
                  end
              end
          else if Ascii.eqb c "[" then
            if maxNestingDepth <? depth + 1 then Invalid "exceeded max depth"
            else
              match skip_space rest with
              | String "]" rest' => Found (Array []) rest'
              | _ =>
                  match scan_elements fuel' (scan_value fuel' (depth + 1)) rest [] with
                  | Found vs r => Found (Array vs) r
                  | Invalid msg => Invalid msg
                  | Truncated => Truncated
                  end
              end
          else if Ascii.eqb c dquote then
            match scan_string rest with
            | Found str r => Found (String_ str) r
            | Invalid msg => Invalid msg
            | Truncated => Truncated
            end
          else if Ascii.eqb c "-" || is_digit c then
            match scan_number (String c rest) with
            | Found lit r => Found (Number lit) r
            | Invalid msg => Invalid msg
            | Truncated => Truncated
            end
          else if Ascii.eqb c "n" then scan_literal "null" Null (String c rest)
          else if Ascii.eqb c "t" then scan_literal "true" (Bool true) (String c rest)
          else if Ascii.eqb c "f" then scan_literal "false" (Bool false) (String c rest)
          else Invalid "invalid character looking for beginning of value"
      end
  end.

(** The syntax check of [json.Unmarshal]: the whole input is one value. *)
Definition parse (data : string) : Result Value :=
  match scan_value (S (String.length data)) 0 data with
  | Found v rest =>
      if String.eqb (skip_space rest) "" then Ok v
      else Err (SyntaxError "invalid character after top-level value")
  | Invalid msg => Err (SyntaxError msg)
  | Truncated => Err (SyntaxError "unexpected end of JSON input")
  end.

(** What [Decoder.Decode] reads from a stream: its first value. *)
Definition parse_first (data : string) : Result Value :=
  if String.eqb (skip_space data) "" then Err EOF
  else
    match scan_value (S (String.length data)) 0 data with
    | Found v _ => Ok v
    | Invalid msg => Err (SyntaxError msg)
    | Truncated => Err UnexpectedEOF
    end.

(** ** Numbers *)

Fixpoint digits_value (acc : Z) (s : string) : Z :=
  match s with
  | String c s' => digits_value (acc * 10 + (code c - code "0")) s'
  | EmptyString => acc
  end.

Definition all_digits (s : string) : bool :=
  negb (String.eqb s "") && negb (any_char (fun c => negb (is_digit c)) s).

(** [strconv.ParseInt lit 10 64] on a JSON number literal. *)
Definition ParseInt (lit : string) : option Z :=
  let '(neg, d) :=
    match lit with
    | String "-" d => (true, d)
    | _ => (false, lit)
    end in
  if all_digits d then
    let n := if neg then - digits_value 0 d else digits_value 0 d in
    if (- 2 ^ 63 <=? n) && (n <? 2 ^ 63) then Some n else None
  else None.

(** The magnitude of a literal as [mantissa * 10 ^ exponent], and the
    number of mantissa digits. *)
Definition magnitude (lit : string) : Z * Z * Z :=
  let s1 := match lit with String "-" d => d | _ => lit end in
  let '(i, s2) := span_digits s1 in
  let '(f, s3) :=
    match s2 with
    | String "." s => span_digits s
    | _ => (EmptyString, s2)
    end in
  let e :=
    match s3 with
    | String _ (String "-" d) => - digits_value 0 d
    | String _ (String "+" d) => digits_value 0 d
    | String _ d => digits_value 0 d
    | EmptyString => 0
    end in
  (digits_value 0 (i +:+ f), e - Z.of_nat (String.length f),
   Z.of_nat (String.length (i +:+ f))).

(** Whether [strconv.ParseFloat] reports a range error: the value
    rounds to infinity, which it does from half an ulp above the
    largest finite number. *)
Definition float_overflows (bits : Z) (lit : string) : bool :=
  let limit := if bits =? 32 then 2 ^ 128 - 2 ^ 103 else 2 ^ 1024 - 2 ^ 970 in
  let '(m, e, n) := magnitude lit in
  if m =? 0 then false
  else if 400 <? e then true
  else if n <? - e then false
  else if 0 <=? e then limit <=? m * 10 ^ e
  else limit * 10 ^ (- e) <=? m.

(** A [float64] or [float32] read from JSON is represented by the
    literal that [strconv.ParseFloat] rounded: [Float "0.12"] is the
    floating-point number nearest to 0.12. The zero value is the
    literal 0. *)
Inductive float := Float (literal : string).
Definition float_zero : float := Float "0".

(** ** Decoding into Go values *)

(** A decoder stores a JSON value into a Go variable of type [T]: it
    maps the variable's current contents to its new contents. The error
    is the first type error met; the library goes on decoding after a
    type error, but returns that first error in the end, and the
    package drops the partly filled value on any error. *)
Definition Dec (T : Type) := Value -> T -> Result T.

Definition kind (v : Value) : string :=
  match v with
  | Null => "null"
  | Bool _ => "bool"
  | Number lit => "number " +:+ lit
  | String_ _ => "string"
  | Array _ => "array"
  | Object _ => "object"
  end.

Definition mismatch {T} (v : Value) (gotype : string) : Result T :=
  Err (UnmarshalTypeError (match v with Number _ => "number" | _ => kind v end) gotype).

Definition dec_string : Dec string := fun v cur =>
  match v with
  | Null => Ok cur
  | String_ s => Ok s
  | _ => mismatch v "string"
  end.

Definition dec_bool : Dec bool := fun v cur =>
  match v with
  | Null => Ok cur
  | Bool b => Ok b
  | _ => mismatch v "bool"
  end.

Definition dec_int : Dec Z := fun v cur =>
  match v with
  | Null => Ok cur
  | Number lit =>
      match ParseInt lit with
      | Some n => Ok n
      | None => Err (UnmarshalTypeError (kind v) "int")
      end
  | _ => mismatch v "int"
  end.

Definition dec_float (bits : Z) : Dec float := fun v cur =>
  match v with
  | Null => Ok cur
  | Number lit =>
      if float_overflows bits lit
      then Err (UnmarshalTypeError (kind v) (if bits =? 32 then "float32" else "float64"))
      else Ok (Float lit)
  | _ => mismatch v (if bits =? 32 then "float32" else "float64")
  end.

(** The first number of a value that does not fit a [float64]. *)
Fixpoint bad_number (v : Value) : option string :=
  match v with
  | Number lit => if float_overflows 64 lit then Some lit else None
  | Array vs =>
      (fix go (l : list Value) : option string :=
         match l with
         | [] => None
         | x :: l' => match bad_number x with Some b => Some b | None => go l' end
         end) vs
  | Object ms =>
      (fix go (l : list (string * Value)) : option string :=
         match l with
         | [] => None
         | (_, x) :: l' => match bad_number x with Some b => Some b | None => go l' end
         end) ms
  | _ => None
  end.

(** An [interface{}] variable holds the value decoded from the text:
    nil for [null], a [bool], a [float64], a [string], a
    [[]interface{}] or a [map[string]interface{}]. It is represented by
    the JSON value itself; [Null] is the nil interface, and an [Object]
    stands for the map in which a repeated key keeps its last value
    ([MapIndex]). *)
Definition any := Value.

Definition dec_any : Dec any := fun v _ =>
  match bad_number v with
  | Some lit => Err (UnmarshalTypeError ("number " +:+ lit) "float64")
  | None => Ok v
  end.

Fixpoint MapIndex (ms : list (string * Value)) (key : string) : any :=
  match ms with
  | [] => Null
  | (k, x) :: ms' =>
      if existsb (fun m => String.eqb (fst m) key) ms' then MapIndex ms' key
      else if String.eqb k key then x
      else Null
  end.

(** The dynamic type of an [interface{}] value, as a failed type
    assertion prints it. *)
Definition dynamic_type (v : any) : string :=
  match v with
  | Null => "nil"
  | Bool _ => "bool"
  | Number _ => "float64"
  | String_ _ => "string"
  | Array _ => "[]interface {}"
  | Object _ => "map[string]interface {}"
  end.

(** A pointer: [null] stores nil, another value is decoded into the
    pointee, which is allocated when the pointer was nil. *)
Definition dec_ptr {T} (d : Dec T) (zero : T) : Dec (option T) := fun v cur =>
  match v with
  | Null => Ok None
  | _ =>
      match d v (default zero cur) with
      | Ok x => Ok (Some x)
      | Err e => Err e
      end
  end.

Fixpoint dec_elems {T} (d : Dec T) (zero : T) (vs : list Value) (old : list T)
  : Result (list T) :=
  match vs with
  | [] => Ok []
  | v :: vs' =>
      match d v (hd zero old) with
      | Ok x =>
          match dec_elems d zero vs' (tl old) with
          | Ok xs => Ok (x :: xs)
          | Err e => Err e
          end
      | Err e => Err e
      end
  end.

(** A slice ([None] is the nil slice): [null] stores nil; the elements
    of an array are decoded in turn, into the elements the slice
    already has as far as it has them. *)
Definition dec_slice {T} (d : Dec T) (zero : T) (gotype : string)
  : Dec (option (list T)) := fun v cur =>
  match v with
  | Null => Ok None
  | Array vs =>
      match dec_elems d zero vs (default [] cur) with
      | Ok xs => Ok (Some xs)
      | Err e => Err e
      end
  | _ => mismatch v gotype
  end.

Fixpoint dec_entries {T} (d : Dec T) (zero : T) (ms : list (string * Value))
    (m : gmap string T) : Result (gmap string T) :=
  match ms with
  | [] => Ok m
  | (k, v) :: ms' =>
      match d v zero with
      | Ok x => dec_entries d zero ms' (<[k := x]> m)
      | Err e => Err e
      end
  end.

(** A map with string keys ([None] is the nil map): every member is
    decoded into a fresh element and stored under its key. *)
Definition dec_map {T} (d : Dec T) (zero : T) (gotype : string)
  : Dec (option (gmap string T)) := fun v cur =>
  match v with
  | Null => Ok None
  | Object ms =>
      match dec_entries d zero ms (default ∅ cur) with
      | Ok m => Ok (Some m)
      | Err e => Err e
      end
  | _ => mismatch v gotype
  end.

(** ASCII case folding. (The library folds two further letters, the
    Kelvin sign and the long s, onto [k] and [s].) *)
Definition EqualFold (a b : string) : bool := String.eqb (ToLower a) (ToLower b).

(** The field a key selects: the field of that exact name, else the
    first field whose name matches when case is ignored. *)
Definition find_field {T} (fields : list (string * Dec T)) (key : string)
  : option (Dec T) :=
  match find (fun f => String.eqb (fst f) key) fields with
  | Some f => Some (snd f)
  | None =>
      match find (fun f => EqualFold (fst f) key) fields with
      | Some f => Some (snd f)
      | None => None
      end
  end.

Fixpoint dec_members {T} (fields : list (string * Dec T))
    (ms : list (string * Value)) (cur : T) : Result T :=
  match ms with
  | [] => Ok cur
  | (k, v) :: ms' =>
      match find_field fields k with
      | Some d =>
          match d v cur with
          | Ok cur' => dec_members fields ms' cur'
          | Err e => Err e
          end
      | None => dec_members fields ms' cur
      end
  end.

(** A struct: [null] changes nothing; the members of an object are
    stored in turn into the fields their keys select, members with
    other keys are skipped. Each entry of [fields] gives a JSON name
    and the decoder that updates that field inside the struct. *)
Definition dec_struct {T} (gotype : string) (fields : list (string * Dec T))
  : Dec T := fun v cur =>
  match v with
  | Null => Ok cur
  | Object ms => dec_members fields ms cur
  | _ => mismatch v gotype
  end.

(** A field decoder from accessors of the struct. *)
Definition field {T A} (get : T -> A) (set : A -> T -> T) (d : Dec A) : Dec T :=
  fun v cur =>
    match d v (get cur) with
    | Ok a => Ok (set a cur)
    | Err e => Err e
    end.

(** [json.Unmarshal data v] *)
Definition Unmarshal {T} (data : string) (d : Dec T) (cur : T) : Result T :=
  match parse data with
  | Ok v => d v cur
  | Err e => Err e
  end.

(** [json.NewDecoder(buf).Decode(v)] on a buffer holding [data]. *)
Definition Decode {T} (data : string) (d : Dec T) (cur : T) : Result T :=
  match parse_first data with
  | Ok v => d v cur
  | Err e => Err e
  end.

(** ** Encoding *)

Definition hexlower (n : Z) : ascii :=
  match String.get (Z.to_nat n) "0123456789abcdef" with
  | Some c => c
  | None => "0"%char
  end.

(** The body of a string literal, HTML-safe as the encoder writes it
    by default. Bytes above 0x7f are copied as they are. *)
Fixpoint escape_string (s : string) : string :=
  match s with
  | EmptyString => EmptyString
  | String c s' =>
      (if Ascii.eqb c dquote then String "\" (String dquote "")
       else if Ascii.eqb c "\" then "\\"
       else if code c =? 8 then "\b"
       else if code c =? 12 then "\f"
       else if code c =? 10 then "\n"
       else if code c =? 13 then "\r"
       else if code c =? 9 then "\t"
       else if (code c <? 32) || elem_char c "<>&" then
         "\u00" +:+ String (hexlower (code c / 16)) (String (hexlower (code c mod 16)) "")
       else String c "")
      +:+ escape_string s'
  end.

Definition quote (s : string) : string :=
  String dquote (escape_string s) +:+ String dquote "".

Definition join (sep : string) (parts : list string) : string :=
  match parts with
  | [] => ""
  | p :: ps => fold_left (fun acc x => acc +:+ sep +:+ x) ps p
  end.

(** The compact text of a value. *)
Fixpoint encode (v : Value) : string :=
  match v with
  | Null => "null"
  | Bool true => "true"
  | Bool false => "false"
  | Number lit => lit
  | String_ s => quote s
  | Array vs => "[" +:+ join "," (map encode vs) +:+ "]"
  | Object ms =>
      "{" +:+ join "," (map (fun m => quote (fst m) +:+ ":" +:+ encode (snd m)) ms) +:+ "}"
  end.

(** A Go value handed to the encoder, by what [json.Marshal] makes of
    it: the JSON value it is written as, or the error for a value the
    encoder refuses (a channel, a function, a NaN). *)
Definition Marshaled := Result Value.

(** [json.NewEncoder(buf).Encode(v)]: the text and a newline. *)
Definition Encode (v : Marshaled) : Result string :=
  match v with
  | Ok j => Ok (encode j +:+ String (url.byte_of 10) "")
  | Err e => Err e
  end.

End json.

(** * Package [postal] *)

Module postal.

Definition libraryVersion : string := "0.1.0".
Definition userAgent : string := "gopostal/" +:+ libraryVersion.
Definition mediaType : string := "application/json".

Definition statusSuccess : string := "success".
Definition statusParameterError : string := "parameter-error".
Definition statusError : string := "error".

(** [RequestCompletionCallback]: an observer of the exchange. *)
Definition RequestCompletionCallback := http.Request -> http.Response -> unit.

(** [Client]. [headers] lists the entries of the map in the order in
    which the [range] statement of [NewRequest] visits them (Go leaves
    that order open). The [Messages] and [Send] fields hold the two
    services, each pointing back at the client: their methods are the
    operations at the end of this module, which take the client. *)
Record Client := mkClient {
  HTTPClient : http.Client;
  BaseURL : option url.URL;
  ApiKey : string;
  headers : list (string * string);
  UserAgent : string;
  onRequestCompleted : option RequestCompletionCallback
}.

(** [Response]: the [http.Response] it wraps and the envelope fields. *)
Module Response.

Record t := mk {
  Response : option http.Response;
  Status : string;
  Time : json.float;
  Flags : option (gmap string json.any);
  Data : json.any
}.

Definition zero : t := mk None "" json.float_zero None json.Null.

Definition set_Status (a : string) (x : t) : t :=
  mk (Response x) a (Time x) (Flags x) (Data x).
Definition set_Time (a : json.float) (x : t) : t :=
  mk (Response x) (Status x) a (Flags x) (Data x).
Definition set_Flags (a : option (gmap string json.any)) (x : t) : t :=
  mk (Response x) (Status x) (Time x) a (Data x).
Definition set_Data (a : json.any) (x : t) : t :=
  mk (Response x) (Status x) (Time x) (Flags x) a.

(** A member that selects a field promoted from the embedded
    [*http.Response]. The library decodes it into that struct; the
    envelope fields are not touched. What the library makes of the
    member's value (a type error, for one that does not fit) is not
    modelled. *)
Definition promoted : json.Dec t := fun _ cur => Ok cur.

(** The fields the decoder sees, in the order of their index: the
    exported fields of the embedded [http.Response] first, then the
    four tagged fields. *)
Definition fields : list (string * json.Dec t) :=
  [("Status", promoted); ("StatusCode", promoted); ("Proto", promoted);
   ("ProtoMajor", promoted); ("ProtoMinor", promoted); ("Header", promoted);
   ("Body", promoted); ("ContentLength", promoted);
   ("TransferEncoding", promoted); ("Close", promoted);
   ("Uncompressed", promoted); ("Trailer", promoted); ("Request", promoted);
   ("TLS", promoted);
   ("status", json.field Status set_Status json.dec_string);
   ("time", json.field Time set_Time (json.dec_float 32));
   ("flags", json.field Flags set_Flags
               (json.dec_map json.dec_any json.Null "map[string]interface {}"));
   ("data", json.field Data set_Data json.dec_any)].

Definition dec : json.Dec t := json.dec_struct "postal.Response" fields.

End Response.

(** [ErrorResponse]: the error caused by an API request. *)
Module ErrorResponse.

Record t := mk {
  Response : option http.Response;
  Data : json.any
}.

End ErrorResponse.

(** A value of the interface type [error]: an error of the standard
    library, or an [*ErrorResponse]. *)
Inductive error :=
| StdErr (e : StdError)
| APIErr (e : ErrorResponse.t).

(** [NewClient]; [DefaultClient] is [http.DefaultClient]. *)
Definition NewClient (DefaultClient : http.Client) (baseURL akey : string) : Client :=
  let burl :=
    match url.Parse baseURL with
    | Ok u => Some u
    | Err _ => None
    end in
  mkClient DefaultClient burl akey [] userAgent None.

Definition OnRequestCompleted (c : Client) (rc : option RequestCompletionCallback)
  : Client :=
  mkClient (HTTPClient c) (BaseURL c) (ApiKey c) (headers c) (UserAgent c) rc.

Definition newResponse (r : http.Response) : Response.t :=
  Response.mk (Some r) "" json.float_zero None json.Null.

Definition SetBaseURL (c : Client) (bu : string) : Client :=
  let u :=
    match url.Parse bu with
    | Ok u => Some u
    | Err _ => None
    end in
  mkClient (HTTPClient c) u (ApiKey c) (headers c) (UserAgent c)
    (onRequestCompleted c).

Definition SetApiKey (c : Client) (akey : string) : Client :=
  mkClient (HTTPClient c) (BaseURL c) akey (headers c) (UserAgent c)
    (onRequestCompleted c).

Definition with_header (f : http.Header -> http.Header) (req : http.Request)
  : http.Request :=
  http.mkRequest (http.Method req) (http.URL req) (f (http.Header_ req))
    (http.Body req) (http.ContentLength req) (http.Host req).

Definition bodyless (method : string) : bool :=
  String.eqb method http.MethodGet || String.eqb method http.MethodHead
  || String.eqb method http.MethodOptions.

(** The part of [NewRequest] after the [switch]: the extra headers are
    added, then the two fixed headers are set. *)
Definition finish_request (c : Client) (req : http.Request) : http.Request :=
  let req := fold_left (fun r kv => with_header (http.Header_Add (fst kv) (snd kv)) r)
               (headers c) req in
  let req := with_header (http.Header_Set "X-Server-API-Key" (ApiKey c)) req in
  with_header (http.Header_Set "User-Agent" (UserAgent c)) req.

(** [Client.NewRequest]. The context argument is not modelled. A nil
    [BaseURL] is dereferenced by the resolution of [urlStr]. *)
Definition NewRequest (c : Client) (method urlStr : string)
    (body : option json.Marshaled) : Outcome (option http.Request * option error) :=
  match url.URL_Parse (BaseURL c) urlStr with
  | Panic msg => Panic msg
  | Return (_, Some err) => Return (None, Some (StdErr err))
  | Return (None, None) => Panic nil_dereference
  | Return (Some u, None) =>
      if bodyless method then
        match http.NewRequest method (url.String_ u) None with
        | Err err => Return (None, Some (StdErr err))
        | Ok req => Return (Some (finish_request c req), None)
        end
      else
        let encoded :=
          match body with
          | Some b => json.Encode b
          | None => Ok EmptyString
          end in
        match encoded with
        | Err err => Return (None, Some (StdErr err))
        | Ok buf =>
            match http.NewRequest method (url.String_ u) (Some buf) with
            | Err err => Return (None, Some (StdErr err))
            | Ok req =>
                let req := with_header (http.Header_Set "Content-Type" mediaType) req in
                Return (Some (finish_request c req), None)
            end
        end
  end.

(** [DoRequestWithClient]: a nil request is dereferenced when the
    context is attached to it. *)
Definition DoRequestWithClient (client : http.Client) (req : option http.Request)
  : Outcome (Result http.Response) :=
  match req with
  | None => Panic nil_dereference
  | Some r => Return (client r)
  end.

Definition DoRequest (DefaultClient : http.Client) (req : option http.Request)
  : Outcome (Result http.Response) :=
  DoRequestWithClient DefaultClient req.

(** [ErrorResponse.Error]; [format] is the [%v] verb of package [fmt]
    applied to the dynamic value of [Data]. The [Request] of a response
    that came through the transport is never nil. *)
Definition ErrorResponse_Error (format : json.any -> string) (r : ErrorResponse.t)
  : Outcome string :=
  match ErrorResponse.Response r with
  | None => Panic nil_dereference
  | Some resp =>
      Return (http.Method (http.Request_ resp) +:+ " "
              +:+ url.String_ (http.URL (http.Request_ resp)) +:+ ": "
              +:+ pretty (http.StatusCode resp) +:+ " "
              +:+ format (ErrorResponse.Data r))
  end.

(** [CheckResponse]. The byte slice is the first component; nil is the
    empty string. The type assertion on [response.Data] has no second
    result: on anything but a map it panics. *)
Definition CheckResponse (r : http.Response) : Outcome (string * option error) :=
  let data := http.read_data (http.RespBody r) in
  let err := http.read_err (http.RespBody r) in
  if bool_decide (err = None) && negb (String.eqb data "") then
    match json.Unmarshal data Response.dec Response.zero with
    | Err err =>
        Return ("", Some (APIErr (ErrorResponse.mk (Some r)
                                    (json.String_ (StdError_Error err)))))
    | Ok response =>
        if negb (String.eqb (Response.Status response) statusSuccess) then
          match Response.Data response with
          | json.Object ms =>
              Return ("", Some (APIErr (ErrorResponse.mk (Some r)
                                          (json.MapIndex ms "message"))))
          | other =>
              Panic ("interface conversion: interface {} is "
                     +:+ json.dynamic_type other
                     +:+ ", not map[string]interface {}")
          end
        else Return (data, None)
    end
  else Return (data, None).

(** [Client.Do]. The target [v] is nil ([None]) or a pointer to a
    variable with the given contents, which [d] decodes into; the third
    component of the result is what the variable holds afterwards
    (after a decode error the model leaves it as it was: no caller in
    the package reads it then). The deferred function drains and closes
    the body; it assigns the local [err] only, after the results are
    set, so it does not change what [Do] returns. *)
Definition Do {T} (c : Client) (req : option http.Request) (d : json.Dec T)
    (v : option T) : Outcome (option Response.t * option error * option T) :=
  match DoRequestWithClient (HTTPClient c) req with
  | Panic msg => Panic msg
  | Return (Err err) => Return (None, Some (StdErr err), v)
  | Return (Ok resp) =>
      let observed :=
        match onRequestCompleted c, req with
        | Some rc, Some r => rc r resp
        | _, _ => tt
        end in
      let response := newResponse resp in
      match CheckResponse resp with
      | Panic msg => Panic msg
      | Return (_, Some err) => Return (Some response, Some err, v)
      | Return (body, None) =>
          if negb (http.StatusCode resp =? http.StatusNoContent) then
            match v with
            | Some cur =>
                match json.Decode body d cur with
                | Err err => Return (None, Some (StdErr err), v)
                | Ok x => Return (Some response, None, Some x)
                end
            | None => Return (Some response, None, v)
            end
          else Return (Some response, None, v)
      end
  end.

(** ** The send service *)

Definition sendBasePath : string := "/api/v1/send".
Definition sendPath : string := sendBasePath +:+ "/message".
Definition sendRawPath : string := sendBasePath +:+ "/raw".

Definition enc_strings (l : option (list string)) : json.Value :=
  match l with
  | None => json.Null
  | Some xs => json.Array (map json.String_ xs)
  end.

Definition enc_int (n : Z) : json.Value := json.Number (pretty n).

Definition key_le (a b : string * json.Value) : Prop :=
  String.leb (fst a) (fst b) = true.

Global Instance key_le_dec : RelDecision key_le.
Proof. intros a b. unfold key_le. apply _. Defined.

(** A map is written with its keys in sorted order. *)
Definition enc_map (m : option (gmap string json.any)) : json.Value :=
  match m with
  | None => json.Null
  | Some m =>
      json.Object (merge_sort key_le (map_to_list m))
  end.

(** [SendRequest]: a request to send a message. *)
Module SendRequest.

Record t := mk {
  To : option (list string);
  CC : option (list string);
  BCC : option (list string);
  From : string;
  Sender : string;
  Subject : string;
  Tag : string;
  ReplyTo : string;
  PlainBody : string;
  HTMLBody : string;
  Attachments : json.any;
  Headers : option (gmap string json.any);
  Bounce : bool
}.

Definition zero : t :=
  mk None None None "" "" "" "" "" "" "" json.Null None false.

Definition to_json (x : t) : json.Value :=
  json.Object
    [("to", enc_strings (To x));
     ("cc", enc_strings (CC x));
     ("bcc", enc_strings (BCC x));
     ("from", json.String_ (From x));
     ("sender", json.String_ (Sender x));
     ("subject", json.String_ (Subject x));
     ("tag", json.String_ (Tag x));
     ("reply_to", json.String_ (ReplyTo x));
     ("plain_body", json.String_ (PlainBody x));
     ("html_body", json.String_ (HTMLBody x));
     ("attachments", id (Attachments x));
     ("headers", enc_map (Headers x));
     ("bounce", json.Bool (Bounce x))].

End SendRequest.

(** [SendRAWRequest]: a request to send a raw RFC2822 message. *)
Module SendRAWRequest.

Record t := mk {
  MailFrom : string;
  RcptTo : option (list string);
  Data : string;
  Bounce : bool
}.

Definition zero : t :=
  mk "" None "" false.

Definition to_json (x : t) : json.Value :=
  json.Object
    [("mail_from", json.String_ (MailFrom x));
     ("rcpt_to", enc_strings (RcptTo x));
     ("data", json.String_ (Data x));
     ("bounce", json.Bool (Bounce x))].

End SendRAWRequest.

(** The element type of [SendResponse.Messages]. *)
Module SentMessage.

Record t := mk {
  ID : Z;
  Token : string
}.

Definition zero : t :=
  mk 0 "".

Definition set_ID (a : Z) (x : t) : t :=
  mk a (Token x).
Definition set_Token (a : string) (x : t) : t :=
  mk (ID x) a.

Definition fields : list (string * json.Dec t) :=
  [("id", json.field ID set_ID (json.dec_int));
   ("token", json.field Token set_Token (json.dec_string))].

Definition dec : json.Dec t := json.dec_struct "struct { ID int; Token string }" fields.

End SentMessage.

(** [SendResponse]: the acknowledgement of a send. *)
Module SendResponse.

Record t := mk {
  MessageID : string;
  Messages : option (gmap string SentMessage.t)
}.

Definition zero : t :=
  mk "" None.

Definition set_MessageID (a : string) (x : t) : t :=
  mk a (Messages x).
Definition set_Messages (a : option (gmap string SentMessage.t)) (x : t) : t :=
  mk (MessageID x) a.

Definition fields : list (string * json.Dec t) :=
  [("message_id", json.field MessageID set_MessageID (json.dec_string));
   ("messages", json.field Messages set_Messages (json.dec_map SentMessage.dec SentMessage.zero "map[string]struct { ID int; Token string }"))].

Definition dec : json.Dec t := json.dec_struct "postal.SendResponse" fields.

End SendResponse.

(** [sendRoot] *)
Record sendRoot := mk_sendRoot { Hash : option SendResponse.t }.

Definition dec_sendRoot : json.Dec sendRoot :=
  json.dec_struct "postal.sendRoot"
    [("data", json.field Hash (fun a _ => mk_sendRoot a)
                (json.dec_ptr SendResponse.dec SendResponse.zero))].

(** A request struct passed by pointer: a nil pointer is written as
    [null]. *)
Definition marshal {T} (to_json : T -> json.Value) (p : option T) : json.Marshaled :=
  match p with
  | Some x => Ok (to_json x)
  | None => Ok json.Null
  end.

(** The shape the four operations share: build a POST request for the
    path, run it with a fresh root as target, unwrap the root. Each
    operation below is written out as in the source and is an instance
    of [call] (see [Send_call] and its siblings). *)
Definition call {Root R} (c : Client) (path : string) (body : json.Marshaled)
    (d : json.Dec Root) (root : Root) (unwrap : Root -> option R)
  : Outcome (option R * option Response.t * option error) :=
  match NewRequest c http.MethodPost path (Some body) with
  | Panic msg => Panic msg
  | Return (_, Some err) => Return (None, None, Some err)
  | Return (req, None) =>
      match Do c req d (Some root) with
      | Panic msg => Panic msg
      | Return (resp, Some err, _) => Return (None, resp, Some err)
      | Return (resp, None, filled) =>
          Return (unwrap (default root filled), resp, None)
      end
  end.

(** [SendingServiceeOp.Send] *)
Definition Send (c : Client) (sendRequest : option SendRequest.t)
  : Outcome (option SendResponse.t * option Response.t * option error) :=
  match NewRequest c http.MethodPost sendPath
          (Some (marshal SendRequest.to_json sendRequest)) with
  | Panic msg => Panic msg
  | Return (_, Some err) => Return (None, None, Some err)
  | Return (req, None) =>
      let root := mk_sendRoot None in
      match Do c req dec_sendRoot (Some root) with
      | Panic msg => Panic msg
      | Return (resp, Some err, _) => Return (None, resp, Some err)
      | Return (resp, None, root') => Return (Hash (default root root'), resp, None)
      end
  end.

(** [SendingServiceeOp.SendRAW] *)
Definition SendRAW (c : Client) (sendRAWRequest : option SendRAWRequest.t)
  : Outcome (option SendResponse.t * option Response.t * option error) :=
  match NewRequest c http.MethodPost sendRawPath
          (Some (marshal SendRAWRequest.to_json sendRAWRequest)) with
  | Panic msg => Panic msg
  | Return (_, Some err) => Return (None, None, Some err)
  | Return (req, None) =>
      let root := mk_sendRoot None in
      match Do c req dec_sendRoot (Some root) with
      | Panic msg => Panic msg
      | Return (resp, Some err, _) => Return (None, resp, Some err)
      | Return (resp, None, root') => Return (Hash (default root root'), resp, None)
      end
  end.

(** ** The messages service *)

Definition messagesBasePath : string := "/api/v1/messages".
Definition detailsPath : string := messagesBasePath +:+ "/message".
Definition deliveriesPath : string := messagesBasePath +:+ "/deliveries".

(** [GetMessageRequest] *)
Module GetMessageRequest.

Record t := mk {
  ID : Z;
  Expansions : json.any
}.

Definition zero : t :=
  mk 0 json.Null.

Definition to_json (x : t) : json.Value :=
  json.Object
    [("id", enc_int (ID x));
     ("_expansions", id (Expansions x))].

End GetMessageRequest.

(** [GetDeliveriesRequest] *)
Module GetDeliveriesRequest.

Record t := mk {
  ID : Z
}.

Definition zero : t :=
  mk 0.

Definition to_json (x : t) : json.Value :=
  json.Object
    [("id", enc_int (ID x))].

End GetDeliveriesRequest.

(** The struct of [MessageDetails.Status]. *)
Module MessageStatus.

Record t := mk {
  Status : string;
  LastDeliveryAttempt : json.float;
  Held : bool;
  HoldExpiry : json.any
}.

Definition zero : t :=
  mk "" json.float_zero false json.Null.

Definition set_Status (a : string) (x : t) : t :=
  mk a (LastDeliveryAttempt x) (Held x) (HoldExpiry x).
Definition set_LastDeliveryAttempt (a : json.float) (x : t) : t :=
  mk (Status x) a (Held x) (HoldExpiry x).
Definition set_Held (a : bool) (x : t) : t :=
  mk (Status x) (LastDeliveryAttempt x) a (HoldExpiry x).
Definition set_HoldExpiry (a : json.any) (x : t) : t :=
  mk (Status x) (LastDeliveryAttempt x) (Held x) a.

Definition fields : list (string * json.Dec t) :=
  [("status", json.field Status set_Status (json.dec_string));
   ("last_delivery_attempt", json.field LastDeliveryAttempt set_LastDeliveryAttempt (json.dec_float 64));
   ("held", json.field Held set_Held (json.dec_bool));
   ("hold_expiry", json.field HoldExpiry set_HoldExpiry (json.dec_any))].

Definition dec : json.Dec t := json.dec_struct "struct { Status string; ... }" fields.

End MessageStatus.

(** The struct of [MessageDetails.Details]. *)
Module MessageInfo.

Record t := mk {
  RcptTo : string;
  MailFrom : string;
  Subject : string;
  MessageID : string;
  Timestamp : json.float;
  Direction : string;
  Size : json.any;
  Bounce : bool;
  BounceForID : Z;
  Tag : json.any;
  ReceivedWithSsl : json.any
}.

Definition zero : t :=
  mk "" "" "" "" json.float_zero "" json.Null false 0 json.Null json.Null.

Definition set_RcptTo (a : string) (x : t) : t :=
  mk a (MailFrom x) (Subject x) (MessageID x) (Timestamp x) (Direction x) (Size x) (Bounce x) (BounceForID x) (Tag x) (ReceivedWithSsl x).
Definition set_MailFrom (a : string) (x : t) : t :=
  mk (RcptTo x) a (Subject x) (MessageID x) (Timestamp x) (Direction x) (Size x) (Bounce x) (BounceForID x) (Tag x) (ReceivedWithSsl x).
Definition set_Subject (a : string) (x : t) : t :=
  mk (RcptTo x) (MailFrom x) a (MessageID x) (Timestamp x) (Direction x) (Size x) (Bounce x) (BounceForID x) (Tag x) (ReceivedWithSsl x).
Definition set_MessageID (a : string) (x : t) : t :=
  mk (RcptTo x) (MailFrom x) (Subject x) a (Timestamp x) (Direction x) (Size x) (Bounce x) (BounceForID x) (Tag x) (ReceivedWithSsl x).
Definition set_Timestamp (a : json.float) (x : t) : t :=
  mk (RcptTo x) (MailFrom x) (Subject x) (MessageID x) a (Direction x) (Size x) (Bounce x) (BounceForID x) (Tag x) (ReceivedWithSsl x).
Definition set_Direction (a : string) (x : t) : t :=
  mk (RcptTo x) (MailFrom x) (Subject x) (MessageID x) (Timestamp x) a (Size x) (Bounce x) (BounceForID x) (Tag x) (ReceivedWithSsl x).
Definition set_Size (a : json.any) (x : t) : t :=
  mk (RcptTo x) (MailFrom x) (Subject x) (MessageID x) (Timestamp x) (Direction x) a (Bounce x) (BounceForID x) (Tag x) (ReceivedWithSsl x).
Definition set_Bounce (a : bool) (x : t) : t :=
  mk (RcptTo x) (MailFrom x) (Subject x) (MessageID x) (Timestamp x) (Direction x) (Size x) a (BounceForID x) (Tag x) (ReceivedWithSsl x).
Definition set_BounceForID (a : Z) (x : t) : t :=
  mk (RcptTo x) (MailFrom x) (Subject x) (MessageID x) (Timestamp x) (Direction x) (Size x) (Bounce x) a (Tag x) (ReceivedWithSsl x).
Definition set_Tag (a : json.any) (x : t) : t :=
  mk (RcptTo x) (MailFrom x) (Subject x) (MessageID x) (Timestamp x) (Direction x) (Size x) (Bounce x) (BounceForID x) a (ReceivedWithSsl x).
Definition set_ReceivedWithSsl (a : json.any) (x : t) : t :=
  mk (RcptTo x) (MailFrom x) (Subject x) (MessageID x) (Timestamp x) (Direction x) (Size x) (Bounce x) (BounceForID x) (Tag x) a.

Definition fields : list (string * json.Dec t) :=
  [("rcpt_to", json.field RcptTo set_RcptTo (json.dec_string));
   ("mail_from", json.field MailFrom set_MailFrom (json.dec_string));
   ("subject", json.field Subject set_Subject (json.dec_string));
   ("message_id", json.field MessageID set_MessageID (json.dec_string));
   ("timestamp", json.field Timestamp set_Timestamp (json.dec_float 64));
   ("direction", json.field Direction set_Direction (json.dec_string));
   ("size", json.field Size set_Size (json.dec_any));
   ("bounce", json.field Bounce set_Bounce (json.dec_bool));
   ("bounce_for_id", json.field BounceForID set_BounceForID (json.dec_int));
   ("tag", json.field Tag set_Tag (json.dec_any));
   ("received_with_ssl", json.field ReceivedWithSsl set_ReceivedWithSsl (json.dec_any))].

Definition dec : json.Dec t := json.dec_struct "struct { RcptTo string; ... }" fields.

End MessageInfo.

(** The struct of [MessageDetails.Inspection]. *)
Module MessageInspection.

Record t := mk {
  Inspected : bool;
  Spam : bool;
  SpamScore : json.float;
  Threat : bool;
  ThreatDetails : json.any
}.

Definition zero : t :=
  mk false false json.float_zero false json.Null.

Definition set_Inspected (a : bool) (x : t) : t :=
  mk a (Spam x) (SpamScore x) (Threat x) (ThreatDetails x).
Definition set_Spam (a : bool) (x : t) : t :=
  mk (Inspected x) a (SpamScore x) (Threat x) (ThreatDetails x).
Definition set_SpamScore (a : json.float) (x : t) : t :=
  mk (Inspected x) (Spam x) a (Threat x) (ThreatDetails x).
Definition set_Threat (a : bool) (x : t) : t :=
  mk (Inspected x) (Spam x) (SpamScore x) a (ThreatDetails x).
Definition set_ThreatDetails (a : json.any) (x : t) : t :=
  mk (Inspected x) (Spam x) (SpamScore x) (Threat x) a.

Definition fields : list (string * json.Dec t) :=
  [("inspected", json.field Inspected set_Inspected (json.dec_bool));
   ("spam", json.field Spam set_Spam (json.dec_bool));
   ("spam_score", json.field SpamScore set_SpamScore (json.dec_float 64));
   ("threat", json.field Threat set_Threat (json.dec_bool));
   ("threat_details", json.field ThreatDetails set_ThreatDetails (json.dec_any))].

Definition dec : json.Dec t := json.dec_struct "struct { Inspected bool; ... }" fields.

End MessageInspection.

(** The struct of [MessageDetails.ActivityEntries]. *)
Module MessageActivity.

Record t := mk {
  Loads : option (list json.any);
  Clicks : option (list json.any)
}.

Definition zero : t :=
  mk None None.

Definition set_Loads (a : option (list json.any)) (x : t) : t :=
  mk a (Clicks x).
Definition set_Clicks (a : option (list json.any)) (x : t) : t :=
  mk (Loads x) a.

Definition fields : list (string * json.Dec t) :=
  [("loads", json.field Loads set_Loads (json.dec_slice json.dec_any json.Null "[]interface {}"));
   ("clicks", json.field Clicks set_Clicks (json.dec_slice json.dec_any json.Null "[]interface {}"))].

Definition dec : json.Dec t := json.dec_struct "struct { Loads []interface {}; Clicks []interface {} }" fields.

End MessageActivity.

(** [MessageDetails]: all details about a message. *)
Module MessageDetails.

Record t := mk {
  ID : Z;
  Token : string;
  Status : MessageStatus.t;
  Details : MessageInfo.t;
  Inspection : MessageInspection.t;
  PlainBody : json.any;
  HTMLBody : json.any;
  Attachments : option (list json.any);
  Headers : unit;
  RawMessage : string;
  ActivityEntries : MessageActivity.t
}.

Definition zero : t :=
  mk 0 "" MessageStatus.zero MessageInfo.zero MessageInspection.zero json.Null json.Null None tt "" MessageActivity.zero.

Definition set_ID (a : Z) (x : t) : t :=
  mk a (Token x) (Status x) (Details x) (Inspection x) (PlainBody x) (HTMLBody x) (Attachments x) (Headers x) (RawMessage x) (ActivityEntries x).
Definition set_Token (a : string) (x : t) : t :=
  mk (ID x) a (Status x) (Details x) (Inspection x) (PlainBody x) (HTMLBody x) (Attachments x) (Headers x) (RawMessage x) (ActivityEntries x).
Definition set_Status (a : MessageStatus.t) (x : t) : t :=
  mk (ID x) (Token x) a (Details x) (Inspection x) (PlainBody x) (HTMLBody x) (Attachments x) (Headers x) (RawMessage x) (ActivityEntries x).
Definition set_Details (a : MessageInfo.t) (x : t) : t :=
  mk (ID x) (Token x) (Status x) a (Inspection x) (PlainBody x) (HTMLBody x) (Attachments x) (Headers x) (RawMessage x) (ActivityEntries x).
Definition set_Inspection (a : MessageInspection.t) (x : t) : t :=
  mk (ID x) (Token x) (Status x) (Details x) a (PlainBody x) (HTMLBody x) (Attachments x) (Headers x) (RawMessage x) (ActivityEntries x).
Definition set_PlainBody (a : json.any) (x : t) : t :=
  mk (ID x) (Token x) (Status x) (Details x) (Inspection x) a (HTMLBody x) (Attachments x) (Headers x) (RawMessage x) (ActivityEntries x).
Definition set_HTMLBody (a : json.any) (x : t) : t :=
  mk (ID x) (Token x) (Status x) (Details x) (Inspection x) (PlainBody x) a (Attachments x) (Headers x) (RawMessage x) (ActivityEntries x).
Definition set_Attachments (a : option (list json.any)) (x : t) : t :=
  mk (ID x) (Token x) (Status x) (Details x) (Inspection x) (PlainBody x) (HTMLBody x) a (Headers x) (RawMessage x) (ActivityEntries x).
Definition set_Headers (a : unit) (x : t) : t :=
  mk (ID x) (Token x) (Status x) (Details x) (Inspection x) (PlainBody x) (HTMLBody x) (Attachments x) a (RawMessage x) (ActivityEntries x).
Definition set_RawMessage (a : string) (x : t) : t :=
  mk (ID x) (Token x) (Status x) (Details x) (Inspection x) (PlainBody x) (HTMLBody x) (Attachments x) (Headers x) a (ActivityEntries x).
Definition set_ActivityEntries (a : MessageActivity.t) (x : t) : t :=
  mk (ID x) (Token x) (Status x) (Details x) (Inspection x) (PlainBody x) (HTMLBody x) (Attachments x) (Headers x) (RawMessage x) a.

Definition fields : list (string * json.Dec t) :=
  [("id", json.field ID set_ID (json.dec_int));
   ("token", json.field Token set_Token (json.dec_string));
   ("status", json.field Status set_Status (MessageStatus.dec));
   ("details", json.field Details set_Details (MessageInfo.dec));
   ("inspection", json.field Inspection set_Inspection (MessageInspection.dec));
   ("plain_body", json.field PlainBody set_PlainBody (json.dec_any));
   ("html_body", json.field HTMLBody set_HTMLBody (json.dec_any));
   ("attachments", json.field Attachments set_Attachments (json.dec_slice json.dec_any json.Null "[]interface {}"));
   ("headers", json.field Headers set_Headers (json.dec_struct "struct {}" []));
   ("raw_message", json.field RawMessage set_RawMessage (json.dec_string));
   ("activity_entries", json.field ActivityEntries set_ActivityEntries (MessageActivity.dec))].

Definition dec : json.Dec t := json.dec_struct "postal.MessageDetails" fields.

End MessageDetails.

(** [MessageDeliveries]: one delivery attempt. *)
Module MessageDeliveries.

Record t := mk {
  ID : Z;
  Status : string;
  Details : string;
  Output : string;
  SentWithSsl : bool;
  LogID : string;
  Time : json.float;
  Timestamp : json.float
}.

Definition zero : t :=
  mk 0 "" "" "" false "" json.float_zero json.float_zero.

Definition set_ID (a : Z) (x : t) : t :=
  mk a (Status x) (Details x) (Output x) (SentWithSsl x) (LogID x) (Time x) (Timestamp x).
Definition set_Status (a : string) (x : t) : t :=
  mk (ID x) a (Details x) (Output x) (SentWithSsl x) (LogID x) (Time x) (Timestamp x).
Definition set_Details (a : string) (x : t) : t :=
  mk (ID x) (Status x) a (Output x) (SentWithSsl x) (LogID x) (Time x) (Timestamp x).
Definition set_Output (a : string) (x : t) : t :=
  mk (ID x) (Status x) (Details x) a (SentWithSsl x) (LogID x) (Time x) (Timestamp x).
Definition set_SentWithSsl (a : bool) (x : t) : t :=
  mk (ID x) (Status x) (Details x) (Output x) a (LogID x) (Time x) (Timestamp x).
Definition set_LogID (a : string) (x : t) : t :=
  mk (ID x) (Status x) (Details x) (Output x) (SentWithSsl x) a (Time x) (Timestamp x).
Definition set_Time (a : json.float) (x : t) : t :=
  mk (ID x) (Status x) (Details x) (Output x) (SentWithSsl x) (LogID x) a (Timestamp x).
Definition set_Timestamp (a : json.float) (x : t) : t :=
  mk (ID x) (Status x) (Details x) (Output x) (SentWithSsl x) (LogID x) (Time x) a.

Definition fields : list (string * json.Dec t) :=
  [("id", json.field ID set_ID (json.dec_int));
   ("status", json.field Status set_Status (json.dec_string));
   ("details", json.field Details set_Details (json.dec_string));
   ("output", json.field Output set_Output (json.dec_string));
   ("sent_with_ssl", json.field SentWithSsl set_SentWithSsl (json.dec_bool));
   ("log_id", json.field LogID set_LogID (json.dec_string));
   ("time", json.field Time set_Time (json.dec_float 64));
   ("timestamp", json.field Timestamp set_Timestamp (json.dec_float 64))].

Definition dec : json.Dec t := json.dec_struct "postal.MessageDeliveries" fields.

End MessageDeliveries.

(** [messageRoot] *)
Record messageRoot := mk_messageRoot { Message : option MessageDetails.t }.

Definition dec_messageRoot : json.Dec messageRoot :=
  json.dec_struct "postal.messageRoot"
    [("data", json.field Message (fun a _ => mk_messageRoot a)
                (json.dec_ptr MessageDetails.dec MessageDetails.zero))].

(** [deliveriesRoot]: a pointer to a slice. *)
Record deliveriesRoot :=
  mk_deliveriesRoot { Deliveries : option (option (list MessageDeliveries.t)) }.

Definition dec_deliveriesRoot : json.Dec deliveriesRoot :=
  json.dec_struct "postal.deliveriesRoot"
    [("data", json.field Deliveries (fun a _ => mk_deliveriesRoot a)
                (json.dec_ptr
                   (json.dec_slice MessageDeliveries.dec MessageDeliveries.zero
                      "[]postal.MessageDeliveries")
                   None))].

(** [MessagesServiceOp.GetMessage] *)
Definition GetMessage (c : Client) (getRequest : option GetMessageRequest.t)
  : Outcome (option MessageDetails.t * option Response.t * option error) :=
  match NewRequest c http.MethodPost detailsPath
          (Some (marshal GetMessageRequest.to_json getRequest)) with
  | Panic msg => Panic msg
  | Return (_, Some err) => Return (None, None, Some err)
  | Return (req, None) =>
      let root := mk_messageRoot None in
      match Do c req dec_messageRoot (Some root) with
      | Panic msg => Panic msg
      | Return (resp, Some err, _) => Return (None, resp, Some err)
      | Return (resp, None, root') => Return (Message (default root root'), resp, None)
      end
  end.

(** [MessagesServiceOp.GetDeliveries] *)
Definition GetDeliveries (c : Client) (getRequest : option GetDeliveriesRequest.t)
  : Outcome (option (option (list MessageDeliveries.t)) * option Response.t * option error) :=
  match NewRequest c http.MethodPost deliveriesPath
          (Some (marshal GetDeliveriesRequest.to_json getRequest)) with
  | Panic msg => Panic msg
  | Return (_, Some err) => Return (None, None, Some err)
  | Return (req, None) =>
      let root := mk_deliveriesRoot None in
      match Do c req dec_deliveriesRoot (Some root) with
      | Panic msg => Panic msg
      | Return (resp, Some err, _) => Return (None, resp, Some err)
      | Return (resp, None, root') => Return (Deliveries (default root root'), resp, None)
      end
  end.

End postal.

(** * Vocabulary of the properties *)

Import postal.

(** A body that reads without error and decodes as an envelope. *)
Definition envelope (r : http.Response) (env : Response.t) : Prop :=
  http.read_err (http.RespBody r) = None
  /\ http.read_data (http.RespBody r) <> ""
  /\ json.Unmarshal (http.read_data (http.RespBody r)) Response.dec Response.zero
     = Ok env.

(** The four paths of the API. *)
Definition operation_path (p : string) : Prop :=
  p = sendPath \/ p = sendRawPath \/ p = detailsPath \/ p = deliveriesPath.

(** What a base URL contributes to the URL of a request: its scheme,
    user information and host. *)
Definition origin (base : url.URL) (path : string) : url.URL :=
  url.mkURL (url.Scheme base) "" (url.User base) (url.Host base) path ""
    false false "" "" "".

(** The text of the scheme and authority of a URL that has a host. *)
Definition authority_text (u : url.URL) : string :=
  (if String.eqb (url.Scheme u) "" then "" else url.Scheme u +:+ ":")
  +:+ "//"
  +:+ (match url.User u with Some ui => ui +:+ "@" | None => "" end)
  +:+ url.escape (url.Host u) url.encodeHost.

(** The values the extra headers of a client add under a key. *)
Definition extras (hs : list (string * string)) (k : string) : list string :=
  map snd (filter (fun kv => http.CanonicalMIMEHeaderKey (fst kv)
                             = http.CanonicalMIMEHeaderKey k) hs).

(** An assignment to the unexported [headers] map, which only code of
    the package can make. *)
Definition set_headers (c : Client) (hs : list (string * string)) : Client :=
  mkClient (HTTPClient c) (BaseURL c) (ApiKey c) hs (UserAgent c)
    (onRequestCompleted c).


(** The byte that ends the output of the encoder. *)
Definition newline : string := String (url.byte_of 10) "".

(** Every operation of the client ends in a nil dereference. *)
Definition crashes (c : Client) : Prop :=
  (forall method p body, operation_path p ->
     NewRequest c method p body = Panic nil_dereference)
  /\ (forall r, Send c r = Panic nil_dereference)
  /\ (forall r, SendRAW c r = Panic nil_dereference)
  /\ (forall r, GetMessage c r = Panic nil_dereference)
  /\ (forall r, GetDeliveries c r = Panic nil_dereference).

(** The URL of the request an operation sent, read off the response
    that the operation returns. *)
Definition request_url {R} (out : Outcome (option R * option Response.t * option error))
  : option string :=
  match out with
  | Return (_, Some response, _) =>
      match Response.Response response with
      | Some r => Some (url.String_ (http.URL (http.Request_ r)))
      | None => None
      end
  | _ => None
  end.

(** An operation's request was built and the transport answered it. *)
Definition exchange (c : Client) (path : string) (body : json.Marshaled)
    (req : http.Request) (resp : http.Response) : Prop :=
  NewRequest c http.MethodPost path (Some body) = Return (Some req, None)
  /\ HTTPClient c req = Ok resp.




(** ** Fixtures *)

(** Response bodies are written with apostrophes where the wire has
    double quotes. *)
Definition wire (s : string) : string :=
  map_string (fun c => if Ascii.eqb c "'" then dquote else c) s.

(** A transport that answers every request with the given status code
    and body. *)
Definition server (status : Z) (body : string) : http.Client :=
  fun req => Ok (http.mkResponse status ∅ (http.mkBody body None) (-1) req).

(** A request as [http.NewRequest] builds it for a POST without body. *)
Definition example_request : http.Request :=
  http.mkRequest "POST"
    (url.mkURL "https" "" None "postal.example.com" "/api/v1/send/message" ""
       false false "" "" "")
    ∅ http.NoBody 0 "postal.example.com".


(** A client whose extra headers use the names of the two fixed
    headers, in two spellings. *)
Definition spoofing_client : Client :=
  set_headers (NewClient (server 200 "") "https://postal.example.com" "secret")
    [("x-server-api-key", "forged"); ("User-Agent", "curl/8"); ("X-Trace", "1");
     ("user-agent", "wget")].

(** A success envelope without [data]. *)
Definition ok_body : string := wire "{'status':'success'}".

(** The payload of the documented [GetDeliveries] scenario, and the
    deliveries it describes. *)
Definition deliveries_body : string :=
  wire "{'status':'success','data':[{'id':1,'status':'Sent','details':'...', 'output':'250 OK','sent_with_ssl':true,'log_id':'abc','time':0.12,'timestamp':1700000000}]}".

Definition deliveries_result : list MessageDeliveries.t :=
  [MessageDeliveries.mk 1 "Sent" "..." "250 OK" true "abc"
     (json.Float "0.12") (json.Float "1700000000")].

(** A client whose transport answers with that payload. *)
Definition deliveries_client : Client :=
  NewClient (server 200 deliveries_body) "https://postal.example.com" "key".



(** * Vocabulary of the further properties *)

(** The clients that the exported functions alone produce: no exported
    function assigns the map of extra headers or the user agent. *)
Inductive exported : Client -> Prop :=
| exported_new dc baseURL akey : exported (NewClient dc baseURL akey)
| exported_base c bu : exported c -> exported (SetBaseURL c bu)
| exported_key c akey : exported c -> exported (SetApiKey c akey)
| exported_callback c rc : exported c -> exported (OnRequestCompleted c rc).


(** A client whose base URL was given without a scheme. *)
Definition schemeless_client : Client :=
  NewClient (server 200 ok_body) "postal.example.com" "key".

(** What classification says, without the response the error wraps:
    the bytes, and the data of the error if there is one. *)
Definition verdict (out : Outcome (string * option error))
  : Outcome (string * option json.any) :=
  match out with
  | Return (b, None) => Return (b, None)
  | Return (b, Some (APIErr e)) => Return (b, Some (ErrorResponse.Data e))
  | Return (b, Some (StdErr e)) => Return (b, Some (json.String_ (StdError_Error e)))
  | Panic msg => Panic msg
  end.

(** A call of one of the four operations, with its argument. *)
Inductive Call :=
| CallSend (r : option SendRequest.t)
| CallSendRAW (r : option SendRAWRequest.t)
| CallGetMessage (r : option GetMessageRequest.t)
| CallGetDeliveries (r : option GetDeliveriesRequest.t).

(** The path and the body of the request that the call builds. *)
Definition call_path (k : Call) : string :=
  match k with
  | CallSend _ => sendPath
  | CallSendRAW _ => sendRawPath
  | CallGetMessage _ => detailsPath
  | CallGetDeliveries _ => deliveriesPath
  end.

Definition call_body (k : Call) : json.Marshaled :=
  match k with
  | CallSend r => marshal SendRequest.to_json r
  | CallSendRAW r => marshal SendRAWRequest.to_json r
  | CallGetMessage r => marshal GetMessageRequest.to_json r
  | CallGetDeliveries r => marshal GetDeliveriesRequest.to_json r
  end.

(** What an operation returns, with the typed result reduced to
    whether it is non-nil. *)
Definition summary {R} (out : Outcome (option R * option Response.t * option error))
  : Outcome (bool * option Response.t * option error) :=
  match out with
  | Return (Some _, resp, err) => Return (true, resp, err)
  | Return (None, resp, err) => Return (false, resp, err)
  | Panic msg => Panic msg
  end.

(** Running a call on a client. *)
Definition run (c : Client) (k : Call)
  : Outcome (bool * option Response.t * option error) :=
  match k with
  | CallSend r => summary (Send c r)
  | CallSendRAW r => summary (SendRAW c r)
  | CallGetMessage r => summary (GetMessage c r)
  | CallGetDeliveries r => summary (GetDeliveries c r)
  end.

(** Two ways for a transport to fail a client: refusing every request,
    and answering with a page that is not JSON. *)
Definition refusing : http.Client :=
  fun _ => Err (OtherError "dial tcp: connection refused").


(** A response whose body broke off while it was read. *)
Definition broken_response : http.Response :=
  http.mkResponse 200 ∅
    (http.mkBody (wire "{'status':'error','da") (Some UnexpectedEOF)) (-1)
    example_request.

(** The members of an envelope that do not select the [data] field of
    a root. *)
Definition beside_data (ms : list (string * json.Value)) : Prop :=
  Forall (fun m => json.EqualFold "data" (fst m) = false) ms.

(** A client whose base URL has a path, a query and a fragment. *)
Definition prefixed_client : Client :=
  NewClient (server 200 ok_body) "https://user@postal.example.com:8443/postal/?v=1#top" "key".

(** An assignment to the exported [BaseURL] field. *)
Definition set_base (c : Client) (base : url.URL) : Client :=
  mkClient (HTTPClient c) (Some base) (ApiKey c) (headers c) (UserAgent c)
    (onRequestCompleted c).

(** * Properties *)

(** Case analysis on a hypothesis [operation_path p]. *)
Ltac each_path H := destruct H as [-> | [-> | [-> | ->]]].

(** Goals about closed terms are settled by evaluation. *)
Ltac by_evaluation := vm_compute; reflexivity.

(** ** The scanner and the two entry points of the decoder *)



Lemma Decode_empty {T} (d : json.Dec T) cur : json.Decode "" d cur = Err EOF.
Proof. reflexivity. Qed.

(** ** [CheckResponse] *)

Lemma CheckResponse_empty r :
  http.read_data (http.RespBody r) = "" -> CheckResponse r = Return ("", None).
Proof.
  intros H. unfold CheckResponse. rewrite H. simpl.
  rewrite andb_false_r. reflexivity.
Qed.


Lemma CheckResponse_envelope r env :
  envelope r env ->
  CheckResponse r =
    if String.eqb (Response.Status env) statusSuccess
    then Return (http.read_data (http.RespBody r), None)
    else match Response.Data env with
         | json.Object ms =>
             Return ("", Some (APIErr (ErrorResponse.mk (Some r)
                                         (json.MapIndex ms "message"))))
         | other =>
             Panic ("interface conversion: interface {} is "
                    +:+ json.dynamic_type other
                    +:+ ", not map[string]interface {}")
         end.
Proof.
  intros (Herr & Hdata & Hdec). unfold CheckResponse.
  rewrite Herr, Hdec.
  apply String.eqb_neq in Hdata. rewrite Hdata. simpl.
  destruct (String.eqb _ statusSuccess); reflexivity.
Qed.

(** Classification of a non-success envelope whose [data] is not an
    object: the unchecked type assertion panics. *)
Lemma CheckResponse_data_not_object r env :
  envelope r env ->
  Response.Status env <> statusSuccess ->
  (forall ms, Response.Data env <> json.Object ms) ->
  exists msg, CheckResponse r = Panic msg.
Proof.
  intros He Hs Hd. rewrite (CheckResponse_envelope _ _ He).
  apply String.eqb_neq in Hs. rewrite Hs.
  destruct (Response.Data env); eauto.
  exfalso. eapply Hd. reflexivity.
Qed.

(** ** [Do] *)

Lemma Do_sent {T} c req resp (d : json.Dec T) v :
  HTTPClient c req = Ok resp ->
  Do c (Some req) d v =
    match CheckResponse resp with
    | Panic msg => Panic msg
    | Return (_, Some err) => Return (Some (newResponse resp), Some err, v)
    | Return (body, None) =>
        if negb (http.StatusCode resp =? http.StatusNoContent) then
          match v with
          | Some cur =>
              match json.Decode body d cur with
              | Err err => Return (None, Some (StdErr err), v)
              | Ok x => Return (Some (newResponse resp), None, Some x)
              end
          | None => Return (Some (newResponse resp), None, v)
          end
        else Return (Some (newResponse resp), None, v)
    end.
Proof. intros H. unfold Do, DoRequestWithClient. rewrite H. reflexivity. Qed.

(** C5. For every response whose body is empty, classification accepts
    it with an empty payload; and when the call needs no decoding (no
    target was passed, or the status is 204 No Content), [Do] returns
    the response with a nil error and leaves the target as it was. *)
Theorem empty_body_is_success {T} (c : Client) (req : http.Request)
    (resp : http.Response) (d : json.Dec T) (v : option T)
    (Hsent : HTTPClient c req = Ok resp)
    (Hempty : http.read_data (http.RespBody resp) = "")
    (Htarget : v = None \/ http.StatusCode resp = http.StatusNoContent) :
  CheckResponse resp = Return ("", None)
  /\ Do c (Some req) d v = Return (Some (newResponse resp), None, v).
Proof.
  pose proof (CheckResponse_empty _ Hempty) as Hc.
  split; [exact Hc|].
  rewrite (Do_sent _ _ _ _ _ Hsent), Hc.
  destruct Htarget as [-> | ->]; [|reflexivity].
  destruct (negb _); reflexivity.
Qed.

Lemma empty_body_is_success_witness :
  let c := NewClient (server 204 "") "https://postal.example.com" "key" in
  CheckResponse (http.mkResponse 204 ∅ (http.mkBody "" None) (-1) example_request)
    = Return ("", None)
  /\ Do c (Some example_request) dec_sendRoot (Some (mk_sendRoot None))
     = Return (Some (newResponse
                       (http.mkResponse 204 ∅ (http.mkBody "" None) (-1)
                          example_request)),
               None, Some (mk_sendRoot None)).
Proof.
  apply (empty_body_is_success
           (NewClient (server 204 "") "https://postal.example.com" "key")
           example_request
           (http.mkResponse 204 ∅ (http.mkBody "" None) (-1) example_request)
           dec_sendRoot (Some (mk_sendRoot None))).
  - reflexivity.
  - reflexivity.
  - right. reflexivity.
Defined.

(** With a target and a status other than 204 the empty body is
    decoded, and the decoder reports the end of the input. *)
Lemma empty_body_with_target {T} (c : Client) req resp (d : json.Dec T) cur :
  HTTPClient c req = Ok resp ->
  http.read_data (http.RespBody resp) = "" ->
  http.StatusCode resp <> http.StatusNoContent ->
  Do c (Some req) d (Some cur) = Return (None, Some (StdErr EOF), Some cur).
Proof.
  intros Hsent Hempty Hcode.
  rewrite (Do_sent _ _ _ _ _ Hsent), (CheckResponse_empty _ Hempty).
  apply Z.eqb_neq in Hcode. rewrite Hcode. reflexivity.
Qed.




(** C1. The response [{"status":"error","data":"oops"}] is a
    well-formed envelope with a non-success status whose [data] is a
    string: [CheckResponse] does not return a classification error, it
    panics on the type assertion. *)
Theorem CheckResponse_string_data_panics :
  CheckResponse
    (http.mkResponse 200 ∅
       (http.mkBody (wire "{'status':'error','data':'oops'}") None) (-1)
       example_request)
  = Panic "interface conversion: interface {} is string, not map[string]interface {}".
Proof. by_evaluation. Qed.

(** The same for a [data] that is null or missing. *)
Lemma CheckResponse_null_data_panics :
  CheckResponse
    (http.mkResponse 500 ∅
       (http.mkBody (wire "{'status':'error','data':null}") None) (-1)
       example_request)
  = Panic "interface conversion: interface {} is nil, not map[string]interface {}"
  /\ CheckResponse
       (http.mkResponse 500 ∅
          (http.mkBody (wire "{'status':'parameter-error'}") None) (-1)
          example_request)
     = Panic "interface conversion: interface {} is nil, not map[string]interface {}".
Proof. split; by_evaluation. Qed.

(** ** URL resolution *)

(** Each path starts with a slash, so resolving it replaces the path of
    the base URL, and drops its query and fragment. *)
Lemma resolve_operation_path base p :
  operation_path p ->
  url.URL_Parse (Some base) p = Return (Some (origin base p), None).
Proof.
  intros Hp. each_path Hp; reflexivity.
Qed.

Lemma resolve_nil_base p :
  operation_path p -> url.URL_Parse None p = Panic nil_dereference.
Proof.
  intros Hp. each_path Hp; reflexivity.
Qed.

(** The resolved URL does not depend on the path of the base URL, in
    particular not on a trailing slash. *)
Lemma resolve_ignores_base_path base base' p :
  operation_path p ->
  url.Scheme base = url.Scheme base' ->
  url.User base = url.User base' ->
  url.Host base = url.Host base' ->
  url.URL_Parse (Some base) p = url.URL_Parse (Some base') p.
Proof.
  intros Hp Hs Hu Hh. rewrite !resolve_operation_path by assumption.
  unfold origin. rewrite Hs, Hu, Hh. reflexivity.
Qed.

Lemma eqb_append_nonempty a b : b <> "" -> String.eqb (a +:+ b) "" = false.
Proof.
  intros Hb. destruct a; [|reflexivity]. apply String.eqb_neq. exact Hb.
Qed.

Lemma append_nil_r (s : string) : s +:+ "" = s.
Proof.
  induction s as [|c s IH]; [reflexivity|].
  change (String c (s +:+ "") = String c s). rewrite IH. reflexivity.
Qed.

(** For a base URL with a host, the text of the resolved URL is the
    scheme and authority of the base URL followed by the path of the
    operation. *)
Lemma String_origin base p :
  operation_path p -> url.Host base <> "" ->
  url.String_ (origin base p) = authority_text base +:+ p.
Proof.
  intros Hp Hh. apply String.eqb_neq in Hh.
  assert (He : url.EscapedPath (origin base p) = p)
    by (each_path Hp; reflexivity).
  assert (Hs : exists r, p = String "/" r)
    by (each_path Hp; eexists; reflexivity).
  destruct Hs as [r Hr]. clear Hp.
  unfold url.String_, authority_text. rewrite He.
  cbn [url.Opaque url.Scheme url.Host url.User url.OmitHost url.Path url.ForceQuery
       url.RawQuery url.Fragment origin].
  rewrite Hh. subst p. simpl.
  rewrite orb_true_r. simpl.
  rewrite eqb_append_nonempty by discriminate.
  change ("" +:+ "") with "". rewrite append_nil_r. reflexivity.
Qed.

(** ** Headers *)

Lemma Header_Values_Set_eq k k' v h :
  http.CanonicalMIMEHeaderKey k = http.CanonicalMIMEHeaderKey k' ->
  http.Header_Values k (http.Header_Set k' v h) = [v].
Proof.
  intros H. unfold http.Header_Values, http.Header_Set.
  rewrite H, lookup_insert_eq. reflexivity.
Qed.

Lemma Header_Values_Set_ne k k' v h :
  http.CanonicalMIMEHeaderKey k <> http.CanonicalMIMEHeaderKey k' ->
  http.Header_Values k (http.Header_Set k' v h) = http.Header_Values k h.
Proof.
  intros H. unfold http.Header_Values, http.Header_Set.
  rewrite lookup_insert_ne by congruence. reflexivity.
Qed.

Lemma Header_Values_Add k k' v h :
  http.Header_Values k (http.Header_Add k' v h) =
    http.Header_Values k h ++ extras [(k', v)] k.
Proof.
  unfold http.Header_Values, http.Header_Add, extras. simpl.
  destruct (decide (http.CanonicalMIMEHeaderKey k' = http.CanonicalMIMEHeaderKey k))
    as [E|E].
  - rewrite filter_cons_True by exact E. rewrite E, lookup_insert_eq. reflexivity.
  - rewrite filter_cons_False by exact E.
    rewrite lookup_insert_ne by exact E. simpl. rewrite app_nil_r. reflexivity.
Qed.

Lemma extras_cons kv hs k :
  extras (kv :: hs) k = extras [kv] k ++ extras hs k.
Proof.
  unfold extras.
  destruct (decide (http.CanonicalMIMEHeaderKey (fst kv) = http.CanonicalMIMEHeaderKey k)).
  - rewrite !filter_cons_True by assumption. reflexivity.
  - rewrite !filter_cons_False by assumption. reflexivity.
Qed.

Lemma add_headers_values hs : forall req k,
  http.Header_Values k
    (http.Header_ (fold_left (fun r kv => with_header (http.Header_Add (fst kv) (snd kv)) r)
                     hs req))
  = http.Header_Values k (http.Header_ req) ++ extras hs k.
Proof.
  induction hs as [|[k' v] hs IH]; intros req k; simpl.
  - unfold extras. simpl. rewrite app_nil_r. reflexivity.
  - rewrite IH. simpl. rewrite Header_Values_Add.
    rewrite (extras_cons (k', v) hs k), app_assoc. reflexivity.
Qed.

Lemma add_headers_fields hs : forall req,
  let req' := fold_left (fun r kv => with_header (http.Header_Add (fst kv) (snd kv)) r)
                hs req in
  http.Method req' = http.Method req /\ http.URL req' = http.URL req
  /\ http.Body req' = http.Body req.
Proof.
  induction hs as [|kv hs IH]; intros req; simpl; [auto|].
  destruct (IH (with_header (http.Header_Add (fst kv) (snd kv)) req)) as (A & B & C).
  simpl in *. auto.
Qed.

Lemma finish_request_fields c req :
  http.Method (finish_request c req) = http.Method req
  /\ http.URL (finish_request c req) = http.URL req
  /\ http.Body (finish_request c req) = http.Body req.
Proof.
  unfold finish_request. simpl. apply add_headers_fields.
Qed.

(** After [finish_request], the two fixed headers hold exactly the
    values of the client; any other key holds what it held before,
    followed by the extra values configured for it. *)
Lemma finish_request_headers c req :
  http.Header_Values "X-Server-API-Key" (http.Header_ (finish_request c req)) = [ApiKey c]
  /\ http.Header_Values "User-Agent" (http.Header_ (finish_request c req)) = [UserAgent c]
  /\ forall k,
       http.CanonicalMIMEHeaderKey k <> "X-Server-Api-Key" ->
       http.CanonicalMIMEHeaderKey k <> "User-Agent" ->
       http.Header_Values k (http.Header_ (finish_request c req))
       = http.Header_Values k (http.Header_ req) ++ extras (headers c) k.
Proof.
  unfold finish_request. simpl. repeat split.
  - rewrite Header_Values_Set_ne by (vm_compute; discriminate).
    apply Header_Values_Set_eq. reflexivity.
  - apply Header_Values_Set_eq. reflexivity.
  - intros k H1 H2.
    rewrite !Header_Values_Set_ne by assumption.
    apply add_headers_values.
Qed.

(** ** [NewRequest] *)

Lemma http_NewRequest_inv method urlStr body req :
  http.NewRequest method urlStr body = Ok req ->
  http.Header_ req = ∅
  /\ http.Body req =
       match body with
       | None => http.BodyNil
       | Some b => if String.eqb b "" then http.NoBody else http.BodyBytes b
       end
  /\ exists u, url.Parse urlStr = Ok u /\ http.URL req = http.normalizeHost u.
Proof.
  unfold http.NewRequest.
  destruct (negb (http.validMethod _)); [discriminate|].
  destruct (url.Parse urlStr) as [u|e]; [|discriminate].
  destruct body as [b|].
  - destruct (String.eqb b ""); intros [= <-]; eauto.
  - intros [= <-]; eauto.
Qed.

(** The two ways in which [NewRequest] returns a request. *)
Lemma NewRequest_inv c method urlStr body req :
  NewRequest c method urlStr body = Return (Some req, None) ->
  exists req0,
    req = finish_request c req0
    /\ if bodyless method
       then http.Header_ req0 = ∅ /\ http.Body req0 = http.BodyNil
       else http.Header_ req0 = http.Header_Set "Content-Type" mediaType ∅
            /\ exists buf,
                 match body with
                 | Some b => json.Encode b
                 | None => Ok EmptyString
                 end = Ok buf
                 /\ http.Body req0
                    = if String.eqb buf "" then http.NoBody else http.BodyBytes buf.
Proof.
  unfold NewRequest.
  destruct (url.URL_Parse _ _) as [[[u|] [e|]]|msg]; try discriminate.
  destruct (bodyless method).
  - destruct (http.NewRequest _ _ _) as [req0|e] eqn:Hn; [|discriminate].
    intros [= <-]. exists req0. split; [reflexivity|].
    apply http_NewRequest_inv in Hn. destruct Hn as (Hh & Hbody & _). auto.
  - destruct (match body with Some b => json.Encode b | None => Ok EmptyString end)
      as [buf|e] eqn:Hb; [|discriminate].
    destruct (http.NewRequest _ _ _) as [req0|e] eqn:Hn; [|discriminate].
    intros [= <-].
    exists (with_header (http.Header_Set "Content-Type" mediaType) req0).
    split; [reflexivity|].
    apply http_NewRequest_inv in Hn. destruct Hn as (Hh & Hbody & _).
    simpl. rewrite Hh. split; [reflexivity|].
    exists buf. split; [reflexivity|exact Hbody].
Qed.

(** Where a request goes: for a base URL with a host, the URL of every
    request for an operation is parsed from the scheme and authority of
    the base URL followed by the path of the operation. The path, the
    query and the fragment of the base URL do not enter it. *)
Lemma NewRequest_target c base method p body req :
  BaseURL c = Some base ->
  url.Host base <> "" ->
  operation_path p ->
  NewRequest c method p body = Return (Some req, None) ->
  exists u,
    url.Parse (authority_text base +:+ p) = Ok u
    /\ http.URL req = http.normalizeHost u.
Proof.
  intros Hb Hh Hp. unfold NewRequest.
  rewrite Hb, (resolve_operation_path _ _ Hp), (String_origin _ _ Hp Hh).
  destruct (bodyless method).
  - destruct (http.NewRequest _ _ _) as [req0|e] eqn:Hn; [|discriminate].
    intros [= <-]. apply http_NewRequest_inv in Hn.
    destruct Hn as (_ & _ & u & Hu & Hurl). exists u. split; [exact Hu|].
    destruct (finish_request_fields c req0) as (_ & -> & _). exact Hurl.
  - destruct (match body with Some b => json.Encode b | None => Ok EmptyString end)
      as [buf|e]; [|discriminate].
    destruct (http.NewRequest _ _ _) as [req0|e] eqn:Hn; [|discriminate].
    intros [= <-]. apply http_NewRequest_inv in Hn.
    destruct Hn as (_ & _ & u & Hu & Hurl). exists u. split; [exact Hu|].
    destruct (finish_request_fields c
                (with_header (http.Header_Set "Content-Type" mediaType) req0))
      as (_ & -> & _). exact Hurl.
Qed.




Lemma append_byte_nonempty s c : String.eqb (s +:+ String c "") "" = false.
Proof. destruct s; reflexivity. Qed.

(** C6 (as amended). For GET, HEAD and OPTIONS [NewRequest] attaches
    no body and sets no [Content-Type] itself: the header holds only
    what the extra headers supply. For every other method it sets
    [Content-Type: application/json] whether or not a body argument is
    given; a non-nil body argument is JSON-serialized into the request
    body, a nil one leaves the body empty. *)
Theorem content_type_follows_method (c : Client) (method urlStr : string)
    (body : option json.Marshaled) (req : http.Request)
    (Hreq : NewRequest c method urlStr body = Return (Some req, None)) :
  if bodyless method then
    http.Body req = http.BodyNil
    /\ http.Header_Values "Content-Type" (http.Header_ req)
       = extras (headers c) "Content-Type"
  else
    http.Header_Values "Content-Type" (http.Header_ req)
    = mediaType :: extras (headers c) "Content-Type"
    /\ match body with
       | None => http.Body req = http.NoBody
       | Some b =>
           exists j, b = Ok j
                     /\ http.Body req = http.BodyBytes (json.encode j +:+ newline)
       end.
Proof.
  apply NewRequest_inv in Hreq. destruct Hreq as (req0 & -> & Hreq0).
  destruct (finish_request_headers c req0) as (_ & _ & Hother).
  destruct (finish_request_fields c req0) as (_ & _ & Hbody).
  rewrite Hbody, (Hother "Content-Type") by (vm_compute; discriminate).
  destruct (bodyless method).
  - destruct Hreq0 as [-> ->]. split; reflexivity.
  - destruct Hreq0 as (-> & buf & Hbuf & ->). split; [reflexivity|].
    destruct body as [[j|e]|]; simpl in Hbuf.
    + injection Hbuf as <-. exists j. split; [reflexivity|].
      unfold newline. rewrite append_byte_nonempty. reflexivity.
    + discriminate.
    + injection Hbuf as <-. reflexivity.
Qed.

Lemma content_type_follows_method_witness :
  exists req,
    NewRequest spoofing_client "GET" sendPath (Some (Ok json.Null))
      = Return (Some req, None)
    /\ http.Body req = http.BodyNil
    /\ http.Header_Values "Content-Type" (http.Header_ req) = [].
Proof.
  destruct (NewRequest spoofing_client "GET" sendPath (Some (Ok json.Null)))
    as [[[req|] [e|]]|msg] eqn:Hreq; try (vm_compute in Hreq; discriminate).
  exists req. split; [reflexivity|].
  exact (content_type_follows_method spoofing_client "GET" sendPath
           (Some (Ok json.Null)) req Hreq).
Defined.

(** C6, counterexample. A POST built without a body argument has no
    body, and yet carries [Content-Type: application/json]. *)
Lemma content_type_without_body :
  exists req,
    NewRequest (NewClient (server 200 "") "https://postal.example.com" "key")
      "POST" sendPath None = Return (Some req, None)
    /\ http.Body req = http.NoBody
    /\ http.ContentLength req = 0
    /\ http.Header_Get "Content-Type" (http.Header_ req) = "application/json".
Proof. eexists. split; [vm_compute; reflexivity|]. vm_compute. auto. Qed.

(** ** The operations *)

Lemma Send_call c r :
  Send c r = call c sendPath (marshal SendRequest.to_json r)
               dec_sendRoot (mk_sendRoot None) Hash.
Proof. reflexivity. Qed.

Lemma SendRAW_call c r :
  SendRAW c r = call c sendRawPath (marshal SendRAWRequest.to_json r)
                  dec_sendRoot (mk_sendRoot None) Hash.
Proof. reflexivity. Qed.

Lemma GetMessage_call c r :
  GetMessage c r = call c detailsPath (marshal GetMessageRequest.to_json r)
                     dec_messageRoot (mk_messageRoot None) Message.
Proof. reflexivity. Qed.

Lemma GetDeliveries_call c r :
  GetDeliveries c r = call c deliveriesPath (marshal GetDeliveriesRequest.to_json r)
                        dec_deliveriesRoot (mk_deliveriesRoot None) Deliveries.
Proof. reflexivity. Qed.

Lemma NewRequest_nil_base c method p body :
  BaseURL c = None -> operation_path p ->
  NewRequest c method p body = Panic nil_dereference.
Proof.
  intros Hb Hp. unfold NewRequest. rewrite Hb, (resolve_nil_base _ Hp). reflexivity.
Qed.

Lemma call_nil_base {Root R} c p body (d : json.Dec Root) root (unwrap : Root -> option R) :
  BaseURL c = None -> operation_path p ->
  call c p body d root unwrap = Panic nil_dereference.
Proof.
  intros Hb Hp. unfold call. rewrite (NewRequest_nil_base _ _ _ _ Hb Hp). reflexivity.
Qed.

Lemma nil_base_crashes c : BaseURL c = None -> crashes c.
Proof.
  intros Hb. unfold crashes, operation_path. repeat split; intros.
  - apply NewRequest_nil_base; assumption.
  - rewrite Send_call. apply call_nil_base; unfold operation_path; auto.
  - rewrite SendRAW_call. apply call_nil_base; unfold operation_path; auto.
  - rewrite GetMessage_call. apply call_nil_base; unfold operation_path; auto.
  - rewrite GetDeliveries_call. apply call_nil_base; unfold operation_path; auto.
Qed.

(** C9. [NewClient] and [SetBaseURL] return a client for every string
    (their types have no error result); when the string does not parse
    as a URL, the client they return has a nil [BaseURL], and every
    operation called on it panics with a nil dereference in
    [NewRequest] instead of returning an error. *)
Theorem unparseable_base_url_crashes (dc : http.Client) (c0 : Client)
    (baseURL akey : string) (e : StdError)
    (Hbad : url.Parse baseURL = Err e) :
  BaseURL (NewClient dc baseURL akey) = None
  /\ crashes (NewClient dc baseURL akey)
  /\ BaseURL (SetBaseURL c0 baseURL) = None
  /\ crashes (SetBaseURL c0 baseURL).
Proof.
  assert (H1 : BaseURL (NewClient dc baseURL akey) = None)
    by (unfold NewClient; rewrite Hbad; reflexivity).
  assert (H2 : BaseURL (SetBaseURL c0 baseURL) = None)
    by (unfold SetBaseURL; rewrite Hbad; reflexivity).
  auto using nil_base_crashes.
Qed.

Lemma unparseable_base_url_crashes_witness :
  let good := NewClient (server 200 "") "https://postal.example.com" "key" in
  url.Parse "://postal.example.com" = Err (UrlError "missing protocol scheme")
  /\ BaseURL (NewClient (server 200 "") "://postal.example.com" "key") = None
  /\ crashes (NewClient (server 200 "") "://postal.example.com" "key")
  /\ BaseURL (SetBaseURL good "://postal.example.com") = None
  /\ crashes (SetBaseURL good "://postal.example.com").
Proof.
  split; [reflexivity|].
  apply (unparseable_base_url_crashes (server 200 "")
           (NewClient (server 200 "") "https://postal.example.com" "key")
           "://postal.example.com" "key" (UrlError "missing protocol scheme")).
  reflexivity.
Defined.

(** C3. With the base URL [https://postal.example.com/postal/] the
    four operations send their requests to
    [https://postal.example.com/api/v1/...]: the path of the base URL
    is not part of the request URL. *)
Theorem base_path_is_dropped :
  let c := NewClient (server 200 ok_body) "https://postal.example.com/postal/" "key" in
  request_url (Send c None) = Some "https://postal.example.com/api/v1/send/message"
  /\ request_url (SendRAW c None) = Some "https://postal.example.com/api/v1/send/raw"
  /\ request_url (GetMessage c None)
     = Some "https://postal.example.com/api/v1/messages/message"
  /\ request_url (GetDeliveries c None)
     = Some "https://postal.example.com/api/v1/messages/deliveries".
Proof. repeat split; by_evaluation. Qed.

(** The part of C3 that the code does meet: a trailing slash of
    the base URL makes no difference. *)
Lemma trailing_slash_is_irrelevant :
  let c := NewClient (server 200 ok_body) "https://postal.example.com" "key" in
  let c' := NewClient (server 200 ok_body) "https://postal.example.com/" "key" in
  request_url (Send c None) = request_url (Send c' None)
  /\ request_url (SendRAW c None) = request_url (SendRAW c' None)
  /\ request_url (GetMessage c None) = request_url (GetMessage c' None)
  /\ request_url (GetDeliveries c None) = request_url (GetDeliveries c' None).
Proof. repeat split; by_evaluation. Qed.

Lemma call_sent {Root R} c p body (d : json.Dec Root) root (unwrap : Root -> option R)
    req resp :
  exchange c p body req resp ->
  call c p body d root unwrap =
    match CheckResponse resp with
    | Panic msg => Panic msg
    | Return (_, Some err) => Return (None, Some (newResponse resp), Some err)
    | Return (b, None) =>
        if negb (http.StatusCode resp =? http.StatusNoContent) then
          match json.Decode b d root with
          | Err err => Return (None, None, Some (StdErr err))
          | Ok x => Return (unwrap x, Some (newResponse resp), None)
          end
        else Return (unwrap root, Some (newResponse resp), None)
    end.
Proof.
  intros [Hreq Hsent]. unfold call. rewrite Hreq, (Do_sent _ _ _ _ _ Hsent).
  destruct (CheckResponse resp) as [[b [err|]]|msg]; try reflexivity.
  destruct (negb _); [|reflexivity].
  destruct (json.Decode b d root); reflexivity.
Qed.

(** A non-success envelope whose [data] is an object: the operation
    returns no result, the response, and an [ErrorResponse] that holds
    the HTTP response (with its request and status code) and
    [data.message]. *)
Lemma call_api_error {Root R} c p body (d : json.Dec Root) root (unwrap : Root -> option R)
    req resp env ms :
  exchange c p body req resp ->
  envelope resp env ->
  Response.Status env <> statusSuccess ->
  Response.Data env = json.Object ms ->
  call c p body d root unwrap
  = Return (None, Some (newResponse resp),
            Some (APIErr (ErrorResponse.mk (Some resp) (json.MapIndex ms "message")))).
Proof.
  intros Hx He Hs Hd. rewrite (call_sent _ _ _ _ _ _ _ _ Hx).
  rewrite (CheckResponse_envelope _ _ He), Hd.
  apply String.eqb_neq in Hs. rewrite Hs. reflexivity.
Qed.

(** The same envelope with a [data] that is not an object: the
    operation panics. *)
Lemma call_data_not_object {Root R} c p body (d : json.Dec Root) root
    (unwrap : Root -> option R) req resp env :
  exchange c p body req resp ->
  envelope resp env ->
  Response.Status env <> statusSuccess ->
  (forall ms, Response.Data env <> json.Object ms) ->
  exists msg, call c p body d root unwrap = Panic msg.
Proof.
  intros Hx He Hs Hd. rewrite (call_sent _ _ _ _ _ _ _ _ Hx).
  destruct (CheckResponse_data_not_object _ _ He Hs Hd) as [msg ->]. eauto.
Qed.

(** C2. HTTP 200 with the envelope [{"status":"error","data":"oops"}]:
    no operation returns an error value, each of them panics. (With an
    object for [data] they return the [ErrorResponse], see
    [call_api_error].) *)
Theorem error_status_with_string_data_panics :
  let c := NewClient (server 200 (wire "{'status':'error','data':'oops'}"))
             "https://postal.example.com" "key" in
  let crash := "interface conversion: interface {} is string, not map[string]interface {}" in
  Send c (Some SendRequest.zero) = Panic crash
  /\ SendRAW c (Some SendRAWRequest.zero) = Panic crash
  /\ GetMessage c (Some (GetMessageRequest.mk 42 (json.Bool true))) = Panic crash
  /\ GetDeliveries c (Some (GetDeliveriesRequest.mk 42)) = Panic crash.
Proof. repeat split; by_evaluation. Qed.

(** The error an operation returns for HTTP 200 with
    [{"status":"error","data":{"message":"bad key"}}]. *)
Lemma error_status_with_message :
  let c := NewClient (server 200 (wire "{'status':'error','data':{'message':'bad key'}}"))
             "https://postal.example.com" "key" in
  exists resp,
    Send c (Some SendRequest.zero)
    = Return (None, Some (newResponse resp),
              Some (APIErr (ErrorResponse.mk (Some resp) (json.String_ "bad key"))))
    /\ http.StatusCode resp = 200
    /\ http.Method (http.Request_ resp) = "POST"
    /\ url.String_ (http.URL (http.Request_ resp))
       = "https://postal.example.com/api/v1/send/message".
Proof. eexists. split; [vm_compute; reflexivity|]. vm_compute. auto. Qed.

(** The text of that error, for a formatter that prints a string as it
    is. *)
Lemma error_text_with_message (format : json.any -> string) :
  format (json.String_ "bad key") = "bad key" ->
  ErrorResponse_Error format
    (ErrorResponse.mk
       (Some (http.mkResponse 200 ∅ (http.mkBody "" None) (-1) example_request))
       (json.String_ "bad key"))
  = Return "POST https://postal.example.com/api/v1/send/message: 200 bad key".
Proof. intros H. unfold ErrorResponse_Error. simpl. rewrite H. reflexivity. Qed.





Lemma eqb_EqualFold a b : String.eqb a b = true -> json.EqualFold a b = true.
Proof.
  intros H. apply String.eqb_eq in H. subst b. unfold json.EqualFold.
  apply String.eqb_refl.
Qed.

(** A struct with a single field: the keys that select it. *)
Lemma find_field_single {T} name (f : json.Dec T) k :
  json.find_field [(name, f)] k = if json.EqualFold name k then Some f else None.
Proof.
  unfold json.find_field. cbn [find fst snd].
  destruct (String.eqb name k) eqn:E.
  - rewrite (eqb_EqualFold _ _ E). reflexivity.
  - destruct (json.EqualFold name k); reflexivity.
Qed.





(** * Further properties *)

(** ** Request construction *)

Lemma ResolveReference_base (base : url.URL) ref :
  exists u, url.ResolveReference (Some base) ref = Return u.
Proof.
  unfold url.ResolveReference.
  repeat match goal with
         | |- context [if ?b then _ else _] => destruct b
         end; eauto.
Qed.

Lemma ResolveReference_absolute u ref :
  url.Scheme ref <> "" -> exists x, url.ResolveReference u ref = Return x.
Proof.
  intros H. apply String.eqb_neq in H. unfold url.ResolveReference.
  rewrite H. simpl. eauto.
Qed.

Lemma ResolveReference_nil ref :
  url.Scheme ref = "" -> url.ResolveReference None ref = Panic nil_dereference.
Proof. intros H. unfold url.ResolveReference. rewrite H. reflexivity. Qed.

(** Once the URL is resolved, [NewRequest] returns. *)
Lemma NewRequest_resolved c method urlStr body u :
  url.URL_Parse (BaseURL c) urlStr = Return (Some u, None) ->
  exists req err,
    NewRequest c method urlStr body = Return (req, err)
    /\ ((exists r, req = Some r /\ err = None)
        \/ (req = None /\ exists e, err = Some e)).
Proof.
  intros H. unfold NewRequest. rewrite H.
  destruct (bodyless method).
  - destruct (http.NewRequest _ _ _); eauto 10.
  - destruct (match body with Some b => json.Encode b | None => Ok EmptyString end);
      [|eauto 10].
    destruct (http.NewRequest _ _ _); eauto 10.
Qed.

Lemma URL_Parse_cases u urlStr :
  (exists e, url.Parse urlStr = Err e
             /\ url.URL_Parse u urlStr = Return (None, Some e))
  \/ (exists ref x, url.Parse urlStr = Ok ref
                    /\ url.URL_Parse u urlStr = Return (Some x, None))
  \/ (exists ref, url.Parse urlStr = Ok ref /\ url.Scheme ref = "" /\ u = None
                  /\ url.URL_Parse u urlStr = Panic nil_dereference).
Proof.
  unfold url.URL_Parse. destruct (url.Parse urlStr) as [ref|e]; [|eauto].
  destruct (String.eqb (url.Scheme ref) "") eqn:Hs.
  - apply String.eqb_eq in Hs. destruct u as [base|].
    + destruct (ResolveReference_base base ref) as [x ->]. eauto 10.
    + rewrite (ResolveReference_nil _ Hs). eauto 10.
  - apply String.eqb_neq in Hs.
    destruct (ResolveReference_absolute u ref Hs) as [x ->]. eauto 10.
Qed.

(** X1. When [NewRequest] returns, exactly one of the request and the
    error is nil. *)
Theorem NewRequest_request_or_error (c : Client) (method urlStr : string)
    (body : option json.Marshaled) (req : option http.Request) (err : option error)
    (Hret : NewRequest c method urlStr body = Return (req, err)) :
  (exists r, req = Some r /\ err = None) \/ (req = None /\ exists e, err = Some e).
Proof.
  destruct (URL_Parse_cases (BaseURL c) urlStr)
    as [(e & _ & H) | [(ref & x & _ & H) | (ref & _ & _ & _ & H)]].
  - unfold NewRequest in Hret. rewrite H in Hret. injection Hret as <- <-. eauto.
  - destruct (NewRequest_resolved c method urlStr body x H) as (req' & err' & Hn & Hc).
    rewrite Hn in Hret. injection Hret as <- <-. exact Hc.
  - unfold NewRequest in Hret. rewrite H in Hret. discriminate.
Qed.

Lemma NewRequest_request_or_error_witness :
  (exists r, @None http.Request = Some r /\ Some (StdErr (UrlError "invalid URL escape")) = None)
  \/ (@None http.Request = None
      /\ exists e, Some (StdErr (UrlError "invalid URL escape")) = Some e).
Proof.
  apply (NewRequest_request_or_error
           (NewClient (server 200 "") "https://postal.example.com" "key")
           "POST" "/api/%zz" None None
           (Some (StdErr (UrlError "invalid URL escape")))).
  vm_compute. reflexivity.
Defined.

(** X2. [NewRequest] panics in one situation only: the client has no
    base URL and [urlStr] parses as a reference without a scheme. (An
    absolute [urlStr] is resolved without the base URL.) *)
Theorem NewRequest_panics_without_base (c : Client) (method urlStr : string)
    (body : option json.Marshaled) (msg : string) :
  NewRequest c method urlStr body = Panic msg
  <-> BaseURL c = None /\ msg = nil_dereference
      /\ exists ref, url.Parse urlStr = Ok ref /\ url.Scheme ref = "".
Proof.
  destruct (URL_Parse_cases (BaseURL c) urlStr)
    as [(e & Hp & H) | [(ref & x & Hp & H) | (ref & Hp & Hs & Hb & H)]].
  - split.
    + unfold NewRequest. rewrite H. discriminate.
    + intros (_ & _ & ref & Hr & _). congruence.
  - split.
    + destruct (NewRequest_resolved c method urlStr body x H) as (rq & er & -> & _).
      discriminate.
    + intros (Hb & _ & ref' & Hr & Hs).
      assert (ref' = ref) by congruence. subst ref'.
      unfold url.URL_Parse in H. rewrite Hp, Hb, (ResolveReference_nil _ Hs) in H.
      discriminate.
  - split.
    + unfold NewRequest. rewrite H. intros [= <-]. eauto.
    + intros (_ & -> & _). unfold NewRequest. rewrite H. reflexivity.
Qed.

(** ** The setters *)

Lemma finish_request_SetApiKey c akey req :
  finish_request (SetApiKey c akey) req
  = with_header (http.Header_Set "X-Server-API-Key" akey) (finish_request c req).
Proof.
  unfold finish_request, with_header, http.Header_Set. simpl. f_equal.
  set (h := http.Header_ (fold_left _ (headers c) req)).
  rewrite (insert_insert_ne _ (http.CanonicalMIMEHeaderKey "X-Server-API-Key")
             (http.CanonicalMIMEHeaderKey "User-Agent"))
    by (vm_compute; discriminate).
  rewrite insert_insert_eq. reflexivity.
Qed.

(** X3. [SetApiKey] changes the API-key header of the requests built
    afterwards and nothing else: a request of the changed client is the
    request of the original client with that one header set anew, and
    errors and panics are the same. *)
Theorem SetApiKey_changes_one_header (c : Client) (akey method urlStr : string)
    (body : option json.Marshaled) :
  NewRequest (SetApiKey c akey) method urlStr body =
    match NewRequest c method urlStr body with
    | Return (Some req, err) =>
        Return (Some (with_header (http.Header_Set "X-Server-API-Key" akey) req), err)
    | other => other
    end.
Proof.
  unfold NewRequest. cbn [BaseURL SetApiKey].
  destruct (url.URL_Parse (BaseURL c) urlStr) as [[[u|] [e|]]|msg]; try reflexivity.
  destruct (bodyless method).
  - destruct (http.NewRequest _ _ _); [|reflexivity].
    rewrite finish_request_SetApiKey. reflexivity.
  - destruct (match body with Some b => json.Encode b | None => Ok EmptyString end);
      [|reflexivity].
    destruct (http.NewRequest _ _ _); [|reflexivity].
    rewrite finish_request_SetApiKey. reflexivity.
Qed.


Lemma finish_request_length c req :
  http.ContentLength (finish_request c req) = http.ContentLength req
  /\ http.Host (finish_request c req) = http.Host req.
Proof.
  unfold finish_request. simpl.
  generalize (headers c). intros hs. revert req.
  induction hs as [|kv hs IH]; intros req; simpl; [auto|].
  apply (IH (with_header (http.Header_Add (fst kv) (snd kv)) req)).
Qed.



(** X5. The body of a [GetDeliveries] request for the message [ID] is
    the object with the one member [id] and a newline. *)
Theorem GetDeliveries_request_body (c : Client) (ID : Z) (req : http.Request)
    (Hreq : NewRequest c http.MethodPost deliveriesPath
              (Some (marshal GetDeliveriesRequest.to_json
                       (Some (GetDeliveriesRequest.mk ID))))
            = Return (Some req, None)) :
  http.Body req = http.BodyBytes ((wire "{'id':" +:+ pretty ID +:+ "}") +:+ newline).
Proof.
  unfold NewRequest in Hreq.
  destruct (url.URL_Parse _ _) as [[[u|] [e|]]|msg]; try discriminate.
  change (bodyless http.MethodPost) with false in Hreq. cbv iota in Hreq.
  change (json.Encode (marshal GetDeliveriesRequest.to_json
                         (Some (GetDeliveriesRequest.mk ID))))
    with (Ok (A:=string) ((wire "{'id':" +:+ pretty ID +:+ "}") +:+ newline)) in Hreq.
  cbv iota beta in Hreq.
  destruct (http.NewRequest http.MethodPost (url.String_ u) _) as [req0|e] eqn:Hn;
    [|discriminate].
  injection Hreq as <-.
  destruct (http_NewRequest_inv _ _ _ _ Hn) as (_ & Hb & _).
  destruct (finish_request_fields c
              (with_header (http.Header_Set "Content-Type" mediaType) req0))
    as (_ & _ & ->).
  simpl. rewrite Hb.
  replace (String.eqb ((wire "{'id':" +:+ pretty ID +:+ "}") +:+ newline) "") with false;
    [reflexivity|].
  reflexivity.
Qed.

Lemma GetDeliveries_request_body_witness :
  exists req,
    NewRequest deliveries_client http.MethodPost deliveriesPath
      (Some (marshal GetDeliveriesRequest.to_json
               (Some (GetDeliveriesRequest.mk (-42)))))
    = Return (Some req, None)
    /\ http.Body req = http.BodyBytes (wire "{'id':-42}" +:+ newline).
Proof.
  destruct (NewRequest deliveries_client http.MethodPost deliveriesPath
              (Some (marshal GetDeliveriesRequest.to_json
                       (Some (GetDeliveriesRequest.mk (-42))))))
    as [[[req|] [e|]]|msg] eqn:Hreq; try (vm_compute in Hreq; discriminate).
  exists req. split; [reflexivity|].
  exact (GetDeliveries_request_body deliveries_client (-42) req Hreq).
Defined.

(** For a base URL without scheme, user and host, the resolved URL
    prints as the bare path. *)
Lemma String_origin_bare base p :
  operation_path p ->
  url.Scheme base = "" -> url.User base = None -> url.Host base = "" ->
  url.String_ (origin base p) = p.
Proof.
  intros Hp Hs Hu Hh. unfold origin. rewrite Hs, Hu, Hh.
  each_path Hp; reflexivity.
Qed.

(** X6. A base URL without scheme and host (a bare [postal.example.com]
    parses as such: the name becomes its path) is not refused anywhere:
    [NewRequest] builds the request, and the request has no host; its
    URL is the path of the operation alone. *)
Theorem schemeless_base_gives_hostless_request (c : Client) (base : url.URL)
    (p : string) (j : json.Value)
    (Hbase : BaseURL c = Some base)
    (Hscheme : url.Scheme base = "")
    (Huser : url.User base = None)
    (Hhost : url.Host base = "")
    (Hpath : operation_path p) :
  exists req,
    NewRequest c http.MethodPost p (Some (Ok j)) = Return (Some req, None)
    /\ http.Host req = ""
    /\ url.Host (http.URL req) = ""
    /\ url.Scheme (http.URL req) = ""
    /\ url.String_ (http.URL req) = p.
Proof.
  unfold NewRequest.
  rewrite Hbase, (resolve_operation_path _ _ Hpath),
    (String_origin_bare _ _ Hpath Hscheme Huser Hhost).
  change (bodyless http.MethodPost) with false. cbv iota.
  change (json.Encode (Ok j)) with (Ok (A:=string) (json.encode j +:+ newline)).
  cbv iota beta.
  assert (Hn : http.NewRequest http.MethodPost p (Some (json.encode j +:+ newline))
               = Ok (http.mkRequest "POST"
                       (url.mkURL "" "" None "" p "" false false "" "" "") ∅
                       (http.BodyBytes (json.encode j +:+ newline))
                       (Z.of_nat (String.length (json.encode j +:+ newline))) "")).
  { unfold http.NewRequest.
    change (String.eqb http.MethodPost "") with false. cbv iota.
    change (negb (http.validMethod "POST")) with false. cbv iota.
    assert (Hparse : url.Parse p = Ok (url.mkURL "" "" None "" p "" false false "" "" ""))
      by (each_path Hpath; reflexivity).
    rewrite Hparse. unfold newline. rewrite append_byte_nonempty. reflexivity. }
  rewrite Hn. eexists. split; [reflexivity|].
  set (req1 := with_header _ _).
  destruct (finish_request_fields c req1) as (_ & -> & _).
  destruct (finish_request_length c req1) as (_ & ->).
  subst req1. simpl. repeat split.
  each_path Hpath; reflexivity.
Qed.

Lemma schemeless_base_gives_hostless_request_witness :
  exists base req,
    BaseURL schemeless_client = Some base
    /\ NewRequest schemeless_client http.MethodPost sendPath (Some (Ok json.Null))
       = Return (Some req, None)
    /\ http.Host req = ""
    /\ url.String_ (http.URL req) = "/api/v1/send/message".
Proof.
  exists (url.mkURL "" "" None "" "postal.example.com" "" false false "" "" "").
  destruct (schemeless_base_gives_hostless_request schemeless_client
              (url.mkURL "" "" None "" "postal.example.com" "" false false "" "" "")
              sendPath json.Null)
    as (req & Hreq & Hh & _ & _ & Hs).
  - reflexivity.
  - reflexivity.
  - reflexivity.
  - reflexivity.
  - left. reflexivity.
  - exists req. auto.
Defined.

Lemma exported_fields c : exported c -> headers c = [] /\ UserAgent c = userAgent.
Proof. induction 1; simpl; auto. Qed.

(** X7. No exported function fills the map of extra headers or changes
    the user agent. So a request built for a client that was made and
    changed through the exported functions carries the API key, the
    library's user agent and, unless the method is GET, HEAD or
    OPTIONS, the JSON content type, and no other header. *)
Theorem exported_client_headers (c : Client) (method urlStr : string)
    (body : option json.Marshaled) (req : http.Request)
    (Hc : exported c)
    (Hreq : NewRequest c method urlStr body = Return (Some req, None)) :
  headers c = []
  /\ http.Header_ req
     = http.Header_Set "User-Agent" userAgent
         (http.Header_Set "X-Server-API-Key" (ApiKey c)
            (if bodyless method then ∅
             else http.Header_Set "Content-Type" mediaType ∅)).
Proof.
  destruct (exported_fields c Hc) as [Hh Hua]. split; [exact Hh|].
  apply NewRequest_inv in Hreq. destruct Hreq as (req0 & -> & Hreq0).
  unfold finish_request. rewrite Hh, Hua. simpl.
  destruct (bodyless method).
  - destruct Hreq0 as [-> _]. reflexivity.
  - destruct Hreq0 as [-> _]. reflexivity.
Qed.

Lemma exported_client_headers_witness :
  exists req,
    NewRequest (SetApiKey deliveries_client "other") "POST" sendPath None
      = Return (Some req, None)
    /\ http.Header_ req
       = http.Header_Set "User-Agent" "gopostal/0.1.0"
           (http.Header_Set "X-Server-API-Key" "other"
              (http.Header_Set "Content-Type" "application/json" ∅)).
Proof.
  destruct (NewRequest (SetApiKey deliveries_client "other") "POST" sendPath None)
    as [[[req|] [e|]]|msg] eqn:Hreq; try (vm_compute in Hreq; discriminate).
  exists req. split; [reflexivity|].
  apply (exported_client_headers (SetApiKey deliveries_client "other") "POST"
           sendPath None req).
  - repeat constructor.
  - exact Hreq.
Defined.

(** ** Classification *)

(** X8. Classification reads the body and nothing else: two responses
    with the same body get the same verdict, whatever their status
    codes and headers. *)
Theorem classification_reads_body_only (r r' : http.Response)
    (Hbody : http.RespBody r = http.RespBody r') :
  verdict (CheckResponse r) = verdict (CheckResponse r').
Proof.
  unfold CheckResponse. rewrite Hbody.
  destruct (bool_decide _ && negb _); [|reflexivity].
  destruct (json.Unmarshal _ _ _) as [env|e]; [|reflexivity].
  destruct (negb _); [|reflexivity].
  destruct (Response.Data env); reflexivity.
Qed.

Lemma classification_reads_body_only_witness :
  verdict (CheckResponse
             (http.mkResponse 200 ∅ (http.mkBody ok_body None) (-1) example_request))
  = verdict (CheckResponse
               (http.mkResponse 500 (http.Header_Set "Retry-After" "1" ∅)
                  (http.mkBody ok_body None) 20 example_request)).
Proof.
  apply (classification_reads_body_only
           (http.mkResponse 200 ∅ (http.mkBody ok_body None) (-1) example_request)
           (http.mkResponse 500 (http.Header_Set "Retry-After" "1" ∅)
              (http.mkBody ok_body None) 20 example_request)).
  reflexivity.
Defined.

(** X9. A failed read of the body is not reported. [CheckResponse]
    returns the bytes read so far with a nil error, without looking at
    them; [Do] without a target then returns the response and a nil
    error. *)
Theorem read_error_is_dropped {T} (c : Client) (req : http.Request)
    (resp : http.Response) (d : json.Dec T) (e : StdError)
    (Hsent : HTTPClient c req = Ok resp)
    (Hread : http.read_err (http.RespBody resp) = Some e) :
  CheckResponse resp = Return (http.read_data (http.RespBody resp), None)
  /\ Do c (Some req) d None = Return (Some (newResponse resp), None, None).
Proof.
  assert (Hc : CheckResponse resp = Return (http.read_data (http.RespBody resp), None))
    by (unfold CheckResponse; rewrite Hread; reflexivity).
  split; [exact Hc|].
  rewrite (Do_sent _ _ _ _ _ Hsent), Hc. destruct (negb _); reflexivity.
Qed.

Lemma read_error_is_dropped_witness :
  CheckResponse broken_response = Return (wire "{'status':'error','da", None)
  /\ Do (NewClient (fun _ => Ok broken_response) "https://postal.example.com" "key")
       (Some example_request) dec_sendRoot None
     = Return (Some (newResponse broken_response), None, None).
Proof.
  apply (read_error_is_dropped
           (NewClient (fun _ => Ok broken_response) "https://postal.example.com" "key")
           example_request broken_response dec_sendRoot UnexpectedEOF).
  - reflexivity.
  - reflexivity.
Defined.







(** ** [Do] and the operations *)

(** X13. The [Response] that [Do] returns never carries the envelope:
    its [Status], [Time], [Flags] and [Data] are the zero values, on
    success as on error. What it carries is the HTTP response that the
    transport returned for the request. *)
Theorem Do_response_has_no_envelope {T} (c : Client) (req : option http.Request)
    (d : json.Dec T) (v v' : option T) (r : Response.t) (e : option error)
    (Hret : Do c req d v = Return (Some r, e, v')) :
  Response.Status r = ""
  /\ Response.Time r = json.float_zero
  /\ Response.Flags r = None
  /\ Response.Data r = json.Null
  /\ exists req0 resp,
       req = Some req0 /\ HTTPClient c req0 = Ok resp
       /\ Response.Response r = Some resp.
Proof.
  destruct req as [req0|]; [|discriminate].
  destruct (HTTPClient c req0) as [resp|err] eqn:Hsent.
  - rewrite (Do_sent _ _ _ _ _ Hsent) in Hret.
    assert (Hr : r = newResponse resp).
    { destruct (CheckResponse resp) as [[b [err|]]|msg]; try discriminate.
      - congruence.
      - destruct (negb _); [|congruence].
        destruct v as [cur|]; [|congruence].
        destruct (json.Decode b d cur); [congruence|discriminate]. }
    subst r. repeat split. eauto.
  - unfold Do, DoRequestWithClient in Hret. rewrite Hsent in Hret. discriminate.
Qed.

Lemma Do_response_has_no_envelope_witness :
  let resp := http.mkResponse 200 ∅ (http.mkBody deliveries_body None) (-1)
                example_request in
  Response.Status (newResponse resp) = ""
  /\ Response.Time (newResponse resp) = json.float_zero
  /\ Response.Flags (newResponse resp) = None
  /\ Response.Data (newResponse resp) = json.Null
  /\ exists req0 resp0,
       Some example_request = Some req0
       /\ HTTPClient deliveries_client req0 = Ok resp0
       /\ Response.Response (newResponse resp) = Some resp0.
Proof.
  apply (Do_response_has_no_envelope deliveries_client (Some example_request)
           dec_deliveriesRoot (Some (mk_deliveriesRoot None))
           (Some (mk_deliveriesRoot (Some (Some deliveries_result))))
           (newResponse (http.mkResponse 200 ∅ (http.mkBody deliveries_body None) (-1)
                           example_request))
           None).
  vm_compute. reflexivity.
Defined.

Lemma run_call c k :
  exists Root R (d : json.Dec Root) (root : Root) (unwrap : Root -> option R),
    unwrap root = None
    /\ run c k = summary (call c (call_path k) (call_body k) d root unwrap).
Proof.
  destruct k as [r|r|r|r].
  - exists sendRoot, SendResponse.t, dec_sendRoot, (mk_sendRoot None), Hash.
    split; reflexivity.
  - exists sendRoot, SendResponse.t, dec_sendRoot, (mk_sendRoot None), Hash.
    split; reflexivity.
  - exists messageRoot, MessageDetails.t, dec_messageRoot, (mk_messageRoot None), Message.
    split; reflexivity.
  - exists deliveriesRoot, (option (list MessageDeliveries.t)), dec_deliveriesRoot,
      (mk_deliveriesRoot None), Deliveries.
    split; reflexivity.
Qed.

(** X14. When the transport fails, every operation returns a nil
    result, a nil response and the error of the transport. *)
Theorem transport_error_is_returned (c : Client) (k : Call) (req : http.Request)
    (e : StdError)
    (Hreq : NewRequest c http.MethodPost (call_path k) (Some (call_body k))
            = Return (Some req, None))
    (Hfail : HTTPClient c req = Err e) :
  run c k = Return (false, None, Some (StdErr e)).
Proof.
  destruct (run_call c k) as (Root & R & d & root & unwrap & _ & ->).
  unfold call. rewrite Hreq. unfold Do, DoRequestWithClient. rewrite Hfail.
  reflexivity.
Qed.

Lemma transport_error_is_returned_witness :
  run (NewClient refusing "https://postal.example.com" "key") (CallSend None)
  = Return (false, None, Some (StdErr (OtherError "dial tcp: connection refused"))).
Proof.
  destruct (NewRequest (NewClient refusing "https://postal.example.com" "key")
              http.MethodPost sendPath (Some (marshal SendRequest.to_json None)))
    as [[[req|] [e|]]|msg] eqn:Hreq; try (vm_compute in Hreq; discriminate).
  apply (transport_error_is_returned
           (NewClient refusing "https://postal.example.com" "key")
           (CallSend None) req (OtherError "dial tcp: connection refused")).
  - exact Hreq.
  - reflexivity.
Defined.



Lemma Do_success_has_response {T} c req (d : json.Dec T) v resp v' :
  Do c req d v = Return (resp, None, v') -> resp <> None.
Proof.
  destruct req as [req0|]; [|discriminate].
  unfold Do, DoRequestWithClient.
  destruct (HTTPClient c req0) as [r|err]; [|discriminate].
  destruct (CheckResponse r) as [[b [err|]]|msg]; try discriminate.
  destruct (negb _); [|congruence].
  destruct v as [cur|]; [|congruence].
  destruct (json.Decode b d cur); [congruence|discriminate].
Qed.

(** X16. What an operation returns is consistent: a non-nil result
    comes with a nil error, and a nil error comes with a non-nil
    response. So checking the error alone tells whether the response
    can be used, and a result is never returned beside an error. *)
Theorem operation_results_are_consistent (c : Client) (k : Call) (result : bool)
    (resp : option Response.t) (err : option error)
    (Hret : run c k = Return (result, resp, err)) :
  (result = true -> err = None) /\ (err = None -> resp <> None).
Proof.
  destruct (run_call c k) as (Root & R & d & root & unwrap & _ & Hrun).
  rewrite Hrun in Hret. unfold call in Hret.
  destruct (NewRequest c _ _ _) as [[rq [e|]]|msg]; try discriminate.
  - injection Hret as <- <- <-. split; discriminate.
  - destruct (Do c rq d (Some root)) as [[[rs [e|]] filled]|msg] eqn:Hdo;
      try discriminate.
    + injection Hret as <- <- <-. split; discriminate.
    + apply Do_success_has_response in Hdo. simpl in Hret.
      destruct (unwrap (default root filled)); injection Hret as <- <- <-; auto.
Qed.

Lemma operation_results_are_consistent_witness :
  (true = true -> @None error = None)
  /\ (@None error = None ->
      Some (newResponse (http.mkResponse 200 ∅ (http.mkBody deliveries_body None) (-1)
                           (http.mkRequest "POST"
                              (url.mkURL "https" "" None "postal.example.com"
                                 "/api/v1/messages/deliveries" "" false false "" "" "")
                              (http.Header_Set "User-Agent" "gopostal/0.1.0"
                                 (http.Header_Set "X-Server-API-Key" "key"
                                    (http.Header_Set "Content-Type" "application/json" ∅)))
                              (http.BodyBytes (wire "{'id':42}" +:+ newline)) 10
                              "postal.example.com")))
      <> None).
Proof.
  apply (operation_results_are_consistent deliveries_client
           (CallGetDeliveries (Some (GetDeliveriesRequest.mk 42))) true).
  vm_compute. reflexivity.
Defined.

(** X17. Under the status 204 No Content an operation never returns a
    result: whenever classification accepts the response, the operation
    returns a nil result, the response and a nil error. *)
Theorem no_content_gives_nil_result (c : Client) (k : Call) (req : http.Request)
    (resp : http.Response) (b : string)
    (Hx : exchange c (call_path k) (call_body k) req resp)
    (Hcode : http.StatusCode resp = http.StatusNoContent)
    (Hok : CheckResponse resp = Return (b, None)) :
  run c k = Return (false, Some (newResponse resp), None).
Proof.
  destruct (run_call c k) as (Root & R & d & root & unwrap & Hnil & ->).
  rewrite (call_sent _ _ _ _ _ _ _ _ Hx), Hok, Hcode. simpl.
  rewrite Hnil. reflexivity.
Qed.

Lemma no_content_gives_nil_result_witness :
  exists resp,
    run (NewClient (server 204 "") "https://postal.example.com" "key")
      (CallSendRAW (Some SendRAWRequest.zero))
    = Return (false, Some (newResponse resp), None).
Proof.
  destruct (NewRequest (NewClient (server 204 "") "https://postal.example.com" "key")
              http.MethodPost sendRawPath
              (Some (marshal SendRAWRequest.to_json (Some SendRAWRequest.zero))))
    as [[[req|] [e|]]|msg] eqn:Hreq; try (vm_compute in Hreq; discriminate).
  exists (http.mkResponse 204 ∅ (http.mkBody "" None) (-1) req).
  apply (no_content_gives_nil_result
           (NewClient (server 204 "") "https://postal.example.com" "key")
           (CallSendRAW (Some SendRAWRequest.zero)) req
           (http.mkResponse 204 ∅ (http.mkBody "" None) (-1) req) "").
  - split; [exact Hreq|reflexivity].
  - reflexivity.
  - reflexivity.
Defined.

(** X18. An empty body under any other status is an error for every
    operation: the body is decoded into the root all the same, the
    decoder reports the end of the input, and the operation returns a
    nil result, a nil response and [EOF]. *)
Theorem empty_body_is_eof_for_operations (c : Client) (k : Call)
    (req : http.Request) (resp : http.Response)
    (Hx : exchange c (call_path k) (call_body k) req resp)
    (Hempty : http.read_data (http.RespBody resp) = "")
    (Hcode : http.StatusCode resp <> http.StatusNoContent) :
  run c k = Return (false, None, Some (StdErr EOF)).
Proof.
  destruct (run_call c k) as (Root & R & d & root & unwrap & _ & ->).
  rewrite (call_sent _ _ _ _ _ _ _ _ Hx), (CheckResponse_empty _ Hempty).
  apply Z.eqb_neq in Hcode. rewrite Hcode. reflexivity.
Qed.

Lemma empty_body_is_eof_for_operations_witness :
  run (NewClient (server 200 "") "https://postal.example.com" "key")
    (CallSend (Some SendRequest.zero))
  = Return (false, None, Some (StdErr EOF)).
Proof.
  destruct (NewRequest (NewClient (server 200 "") "https://postal.example.com" "key")
              http.MethodPost sendPath
              (Some (marshal SendRequest.to_json (Some SendRequest.zero))))
    as [[[req|] [e|]]|msg] eqn:Hreq; try (vm_compute in Hreq; discriminate).
  apply (empty_body_is_eof_for_operations
           (NewClient (server 200 "") "https://postal.example.com" "key")
           (CallSend (Some SendRequest.zero)) req
           (http.mkResponse 200 ∅ (http.mkBody "" None) (-1) req)).
  - split; [exact Hreq|reflexivity].
  - reflexivity.
  - vm_compute. discriminate.
Defined.

Lemma dec_members_beside_data {T} (f : json.Dec T) ms cur :
  beside_data ms -> json.dec_members [("data", f)] ms cur = Ok cur.
Proof.
  induction 1 as [|[k v] ms Hk _ IH]; [reflexivity|].
  cbn [json.dec_members]. rewrite find_field_single.
  cbn [fst] in Hk. rewrite Hk. exact IH.
Qed.

Lemma dec_elems_fresh {T} (d : json.Dec T) zero vs : forall xs,
  json.dec_elems d zero vs [] = Ok xs ->
  Forall2 (fun v x => d v zero = Ok x) vs xs.
Proof.
  induction vs as [|v vs IH]; intros xs H; simpl in H.
  - injection H as <-. constructor.
  - destruct (d v zero) as [x|e] eqn:Hd; [|discriminate].
    destruct (json.dec_elems d zero vs []) as [ys|e] eqn:Hr; [|discriminate].
    injection H as <-. constructor; auto.
Qed.

Lemma dec_members_app {T} (fields : list (string * json.Dec T)) ms1 ms2 : forall cur,
  json.dec_members fields (ms1 ++ ms2) cur
  = match json.dec_members fields ms1 cur with
    | Ok cur' => json.dec_members fields ms2 cur'
    | Err e => Err e
    end.
Proof.
  induction ms1 as [|[k v] ms1 IH]; intros cur; [reflexivity|].
  cbn [app json.dec_members].
  destruct (json.find_field fields k) as [d|]; [|apply IH].
  destruct (d v cur); [apply IH|reflexivity].
Qed.

(** X19. [GetDeliveries] decodes the array under [data] element by
    element: when the root decodes, the sequence it holds has one
    delivery for each element of the array, in the order of the array,
    each decoded on its own from the zero value. Members of the
    envelope beside [data] do not enter the result. *)
Theorem deliveries_are_decoded_in_order
    (before after : list (string * json.Value)) (vs : list json.Value)
    (root : deliveriesRoot)
    (Hbefore : beside_data before)
    (Hafter : beside_data after)
    (Hdec : dec_deliveriesRoot (json.Object (before ++ ("data", json.Array vs) :: after))
              (mk_deliveriesRoot None) = Ok root) :
  exists ds,
    Deliveries root = Some (Some ds)
    /\ Forall2 (fun v d => MessageDeliveries.dec v MessageDeliveries.zero = Ok d) vs ds.
Proof.
  unfold dec_deliveriesRoot, json.dec_struct in Hdec.
  rewrite dec_members_app, (dec_members_beside_data _ _ _ Hbefore) in Hdec.
  cbn [json.dec_members] in Hdec. rewrite find_field_single in Hdec.
  change (json.EqualFold "data" "data") with true in Hdec. cbv iota in Hdec.
  unfold json.field at 1 in Hdec. cbn [json.dec_ptr json.dec_slice Deliveries] in Hdec.
  cbn [default] in Hdec.
  destruct (json.dec_elems MessageDeliveries.dec MessageDeliveries.zero vs [])
    as [ds|e] eqn:Helems; [|discriminate].
  rewrite (dec_members_beside_data _ _ _ Hafter) in Hdec.
  injection Hdec as <-. exists ds. split; [reflexivity|].
  apply dec_elems_fresh. exact Helems.
Qed.

Lemma deliveries_are_decoded_in_order_witness :
  exists root ds,
    json.Decode deliveries_body dec_deliveriesRoot (mk_deliveriesRoot None) = Ok root
    /\ Deliveries root = Some (Some ds)
    /\ Forall2 (fun v d => MessageDeliveries.dec v MessageDeliveries.zero = Ok d)
         [json.Object
            [("id", json.Number "1"); ("status", json.String_ "Sent");
             ("details", json.String_ "..."); ("output", json.String_ "250 OK");
             ("sent_with_ssl", json.Bool true); ("log_id", json.String_ "abc");
             ("time", json.Number "0.12"); ("timestamp", json.Number "1700000000")]]
         ds.
Proof.
  exists (mk_deliveriesRoot (Some (Some deliveries_result))).
  destruct (deliveries_are_decoded_in_order
              [("status", json.String_ "success")] []
              [json.Object
                 [("id", json.Number "1"); ("status", json.String_ "Sent");
                  ("details", json.String_ "..."); ("output", json.String_ "250 OK");
                  ("sent_with_ssl", json.Bool true); ("log_id", json.String_ "abc");
                  ("time", json.Number "0.12"); ("timestamp", json.Number "1700000000")]]
              (mk_deliveriesRoot (Some (Some deliveries_result))))
    as (ds & Hroot & Hall).
  - repeat constructor.
  - constructor.
  - vm_compute. reflexivity.
  - exists ds. split; [vm_compute; reflexivity|]. split; [|exact Hall].
    simpl in Hroot. injection Hroot as <-. reflexivity.
Defined.

Lemma finish_request_set_base c base req :
  finish_request (set_base c base) req = finish_request c req.
Proof. reflexivity. Qed.

(** X20. Of the base URL only the scheme, the user information and the
    host reach a request for an operation: replacing the base URL by
    one that agrees in these three, whatever its path, query and
    fragment, changes nothing in what [NewRequest] returns. *)
Theorem request_ignores_base_path (c : Client) (base base' : url.URL)
    (method p : string) (body : option json.Marshaled)
    (Hbase : BaseURL c = Some base)
    (Hscheme : url.Scheme base' = url.Scheme base)
    (Huser : url.User base' = url.User base)
    (Hhost : url.Host base' = url.Host base)
    (Hpath : operation_path p) :
  NewRequest (set_base c base') method p body = NewRequest c method p body.
Proof.
  unfold NewRequest. cbn [BaseURL set_base]. rewrite Hbase.
  rewrite (resolve_ignores_base_path base' base p Hpath Hscheme Huser Hhost).
  destruct (url.URL_Parse (Some base) p) as [[[u|] [e|]]|msg]; try reflexivity.
Qed.

Lemma request_ignores_base_path_witness :
  NewRequest
    (set_base prefixed_client
       (url.mkURL "https" "" (Some "user") "postal.example.com:8443" "" "" false false
          "" "" ""))
    http.MethodPost sendPath None
  = NewRequest prefixed_client http.MethodPost sendPath None.
Proof.
  apply (request_ignores_base_path prefixed_client
           (url.mkURL "https" "" (Some "user") "postal.example.com:8443" "/postal/" ""
              false false "v=1" "top" "")).
  - reflexivity.
  - reflexivity.
  - reflexivity.
  - reflexivity.
  - left. reflexivity.
Defined.


